(** * CCF: contextual coherence fields, the pure-Python core

    A shallow embedding of the Python package [ccf_core]
    ([coherence_field_py.py], [social_phase.py], [text_context_key.py],
    [persistence.py], and of [demo.py] the scripted run and the loading and
    saving of the field) and the properties its specification states.

    Conventions of the embedding.
    - Python [int] is [Z] (unbounded); the 32-bit wrap of the hash is the
      explicit [& 0xFFFFFFFF] of the source.
    - Python [float] is idealised as an exact rational [Q]: every decimal
      constant of the source (0.12, 0.3, 0.55, ...) is the rational it
      denotes, and NaN and the infinities are outside the model.  Equality of
      floats is [Qeq] where a value is computed, Leibniz equality where a
      value is only stored and read back.
    - A Python [str] is a [string] of ASCII characters; what is stated of
      an arbitrary text is stated under [PyStr.is_ascii].
    - A Python [dict] used as a map is a [gmap]; exceptions are a [result]
      type; mutation is explicit state passing.
    - The filesystem is a map from file names to contents, each content
      classified by what [open] and [json.load] make of it; [json.dump] and
      [json.load] are inverse on JSON values; one call of [save] meets at most
      one filesystem fault among its steps, at a step chosen by the
      environment, and the [os.unlink] of its cleanup may fail as well. *)

From Stdlib Require Import ZArith QArith Qminmax Qabs Lqa Lia List Ascii String.
From Stdlib Require Import DecimalString DecimalZ DecimalPos.
From stdpp Require Import gmap strings.

Set Warnings "-register-all".

(** ** Python built-ins used by the sources *)

Module Py.

Local Open Scope Q_scope.

(** [a < b] and [a >= b] on floats. *)
Definition lt (a b : Q) : bool := negb (Qle_bool b a).
Definition ge (a b : Q) : bool := Qle_bool b a.

(** [min(a, b)] keeps its first argument unless the second is strictly
    smaller; [max(a, b)] keeps it unless the second is strictly larger. *)
Definition min (a b : Q) : Q := if lt b a then b else a.
Definition max (a b : Q) : Q := if lt a b then b else a.

(** The exceptions the modelled code raises or catches. *)
Inductive exn :=
| KeyError | ValueError | TypeError | AttributeError
| OSError | JSONDecodeError | UnicodeDecodeError | CcfLoadError
| OverflowError.

Inductive result (A : Type) :=
| Ok (a : A)
| Raise (e : exn).
Arguments Ok {A} a.
Arguments Raise {A} e.

Definition bind {A B} (r : result A) (k : A -> result B) : result B :=
  match r with
  | Ok a => k a
  | Raise e => Raise e
  end.

(** The JSON-compatible Python values: what [json.load] returns and what
    the callers of [save] pass in. *)
Inductive value :=
| VNone
| VBool (b : bool)
| VInt (z : Z)
| VFloat (q : Q)
| VStr (s : string)
| VList (l : list value)
| VDict (m : gmap string value).

(** Python's own text conversions ([float("0.5")], [int("12")], [str(x)]
    of a non-string) belong to the interpreter, not to this package; the
    model takes them as given functions. *)
Record builtins := {
  float_of_str : string -> option Q;
  int_of_str : string -> option Z;
  str_of_value : value -> string
}.

Section Conversions.
Variable bi : builtins.

(** [float(z)] of an int raises OverflowError ("int too large to convert to
    float") when [z], rounded to the nearest double, lies beyond the largest
    finite one, [2^1024 - 2^971]: that is from [2^1024 - 2^970] on, the
    midpoint to [2^1024], which rounds up. *)
Definition float_overflows (z : Z) : bool :=
  (2 ^ 1024 - 2 ^ 970 <=? Z.abs z)%Z.

(** [float(v)] *)
Definition float (v : value) : result Q :=
  match v with
  | VFloat q => Ok q
  | VInt z => if float_overflows z then Raise OverflowError else Ok (inject_Z z)
  | VBool b => Ok (if b then 1 else 0)
  | VStr s =>
      match float_of_str bi s with
      | Some q => Ok q
      | None => Raise ValueError
      end
  | VNone | VList _ | VDict _ => Raise TypeError
  end.

(** [int(v)]; a float is truncated toward zero. *)
Definition int (v : value) : result Z :=
  match v with
  | VInt z => Ok z
  | VBool b => Ok (Z.b2z b)
  | VFloat q => Ok (Z.quot (Qnum q) (Z.pos (Qden q)))
  | VStr s =>
      match int_of_str bi s with
      | Some z => Ok z
      | None => Raise ValueError
      end
  | VNone | VList _ | VDict _ => Raise TypeError
  end.

(** [str(v)] *)
Definition str (v : value) : string :=
  match v with
  | VStr s => s
  | _ => str_of_value bi v
  end.
End Conversions.

(** [v.get(key, default)]: only a dict has [get]. *)
Definition get (v : value) (key : string) (default : value) : result value :=
  match v with
  | VDict m =>
      Ok match m !! key with
         | Some x => x
         | None => default
         end
  | _ => Raise AttributeError
  end.

(** [v[key]] with a string key. *)
Definition subscript (v : value) (key : string) : result value :=
  match v with
  | VDict m =>
      match m !! key with
      | Some x => Ok x
      | None => Raise KeyError
      end
  | _ => Raise TypeError
  end.

(** [v > n] for an integer constant [n]. *)
Definition gt_int (v : value) (n : Z) : result bool :=
  match v with
  | VInt z => Ok (n <? z)%Z
  | VBool b => Ok (n <? Z.b2z b)%Z
  | VFloat q => Ok (lt (inject_Z n) q)
  | VNone | VStr _ | VList _ | VDict _ => Raise TypeError
  end.

Fixpoint chars (s : string) : list value :=
  match s with
  | EmptyString => []
  | String c rest => VStr (String c EmptyString) :: chars rest
  end.

(** [for x in v]: the items a [for] loop visits. *)
Definition iter (v : value) : result (list value) :=
  match v with
  | VList l => Ok l
  | VDict m => Ok (VStr <$> (map_to_list m).*1)
  | VStr s => Ok (chars s)
  | VNone | VBool _ | VInt _ | VFloat _ => Raise TypeError
  end.

(** [v.items()]: only a dict has [items].  The pairs come in the order of
    the map, which is not the insertion order of a Python dict; what is proved
    of a loop over them does not depend on the order. *)
Definition items (v : value) : result (list (string * value)) :=
  match v with
  | VDict m => Ok (map_to_list m)
  | _ => Raise AttributeError
  end.

End Py.

Declare Scope result_scope.
Delimit Scope result_scope with result.
Notation "'do' x <- e ; k" := (Py.bind e (fun x => k))
  (at level 10, x name, e at level 100, k at level 200) : result_scope.

(** ** coherence_field_py.py *)

Module _Accumulator.

Local Open Scope Q_scope.

Record t := mk {
  coherence : Q;
  earned_floor : Q;
  interaction_count : Z
}.

(** [_Accumulator()] *)
Definition new : t := mk 0.0 0.0 0.

Definition positive_interaction (self : t) (curiosity : Q) (alone : bool) : t :=
  let gain := curiosity * 0.12 in
  let coherence' := Py.min 1.0 (coherence self + gain) in
  let earned_floor' := Py.min coherence' (earned_floor self + gain * 0.3) in
  mk coherence' earned_floor' (interaction_count self + 1).

Definition negative_interaction (self : t) (recovery : Q) : t :=
  let decay := 0.15 * (1.0 - recovery) in
  let coherence' := Py.max (earned_floor self) (coherence self - decay) in
  mk coherence' (earned_floor self) (interaction_count self + 1).

Definition effective_coherence (self : t) (instant : Q) : Q :=
  let ctx := coherence self in
  if Py.lt ctx 0.3 then Py.min instant ctx
  else 0.3 * instant + 0.7 * ctx.

Definition to_dict (self : t) : gmap string Py.value :=
  <["coherence" := Py.VFloat (coherence self)]>
  (<["earned_floor" := Py.VFloat (earned_floor self)]>
  (<["interaction_count" := Py.VInt (interaction_count self)]> ∅)).

Definition from_dict (bi : Py.builtins) (data : Py.value) : Py.result t :=
  (do c0 <- Py.get data "coherence" (Py.VFloat 0.0);
   do c <- Py.float bi c0;
   do f0 <- Py.get data "earned_floor" (Py.VFloat 0.0);
   do f <- Py.float bi f0;
   do n0 <- Py.get data "interaction_count" (Py.VInt 0);
   do n <- Py.int bi n0;
   Py.Ok (mk c f n))%result.

End _Accumulator.

Module CoherenceFieldPy.

Local Open Scope Q_scope.

Record t := mk {
  curiosity_drive : Q;
  recovery_rate : Q;
  _accumulators : gmap Z _Accumulator.t
}.

(** [CoherenceFieldPy(curiosity_drive, recovery_rate)] *)
Definition new (curiosity_drive recovery_rate : Q) : Py.result t :=
  if negb (Qle_bool 0.0 curiosity_drive && Qle_bool curiosity_drive 1.0)
  then Py.Raise Py.ValueError
  else if negb (Qle_bool 0.0 recovery_rate && Qle_bool recovery_rate 1.0)
  then Py.Raise Py.ValueError
  else Py.Ok (mk curiosity_drive recovery_rate ∅).

(** Methods run in a state monad over the field object. *)
Definition M (A : Type) : Type := t -> A * t.

Definition ret {A} (a : A) : M A := fun self => (a, self).
Definition bind {A B} (m : M A) (k : A -> M B) : M B :=
  fun self => let (a, self') := m self in k a self'.
Definition read : M t := fun self => (self, self).
Definition store (context_hash : Z) (acc : _Accumulator.t) : M unit :=
  fun self =>
    (tt, mk (curiosity_drive self) (recovery_rate self)
            (<[context_hash := acc]> (_accumulators self))).

Declare Scope field_scope.
Delimit Scope field_scope with field.
Notation "'do' x <- e ; k" := (bind e (fun x => k))
  (at level 10, x name, e at level 100, k at level 200) : field_scope.
Local Open Scope field_scope.

Definition _get_or_create (context_hash : Z) : M _Accumulator.t :=
  do self <- read;
  match _accumulators self !! context_hash with
  | None =>
      do _u <- store context_hash _Accumulator.new;
      ret _Accumulator.new
  | Some acc => ret acc
  end.

(** The accumulator is updated in place: the object held by the dict is
    the one that is mutated. *)
Definition positive_interaction (context_hash : Z) (alone : bool) : M unit :=
  do acc <- _get_or_create context_hash;
  do self <- read;
  store context_hash
    (_Accumulator.positive_interaction acc (curiosity_drive self) alone).

Definition negative_interaction (context_hash : Z) : M unit :=
  do acc <- _get_or_create context_hash;
  do self <- read;
  store context_hash
    (_Accumulator.negative_interaction acc (recovery_rate self)).

Definition effective_coherence (context_hash : Z) (instant : Q) : M Q :=
  do self <- read;
  match _accumulators self !! context_hash with
  | None =>
      let ctx := 0.0 in
      if Py.lt ctx 0.3 then ret (Py.min instant ctx)
      else ret (0.3 * instant + 0.7 * ctx)
  | Some acc => ret (_Accumulator.effective_coherence acc instant)
  end.

Definition raw_coherence (context_hash : Z) : M Q :=
  do self <- read;
  match _accumulators self !! context_hash with
  | None => ret 0.0
  | Some acc => ret (_Accumulator.coherence acc)
  end.

Definition interaction_count (context_hash : Z) : M Z :=
  do self <- read;
  match _accumulators self !! context_hash with
  | None => ret 0%Z
  | Some acc => ret (_Accumulator.interaction_count acc)
  end.

(** [{str(k): v.to_dict() for k, v in self._accumulators.items()}] *)
Definition accumulators_to_dict (bi : Py.builtins)
    (accs : gmap Z _Accumulator.t) : gmap string Py.value :=
  fold_left
    (fun d kv =>
       <[Py.str bi (Py.VInt (fst kv)) := Py.VDict (_Accumulator.to_dict (snd kv))]> d)
    (map_to_list accs) ∅.

Definition to_dict (bi : Py.builtins) (self : t) : Py.value :=
  Py.VDict
    (<["curiosity_drive" := Py.VFloat (curiosity_drive self)]>
    (<["recovery_rate" := Py.VFloat (recovery_rate self)]>
    (<["accumulators" := Py.VDict (accumulators_to_dict bi (_accumulators self))]>
       ∅))).

(** The loop of [from_dict]: the right-hand side [_Accumulator.from_dict] is
    evaluated before the key [int(key_str)]. *)
Fixpoint from_dict_items (bi : Py.builtins) (pairs : list (string * Py.value))
    (field : t) : Py.result t :=
  match pairs with
  | [] => Py.Ok field
  | (key_str, acc_data) :: rest =>
      (do acc <- _Accumulator.from_dict bi acc_data;
       do k <- Py.int bi (Py.VStr key_str);
       from_dict_items bi rest
         (mk (curiosity_drive field) (recovery_rate field)
             (<[k := acc]> (_accumulators field))))%result
  end.

Definition from_dict (bi : Py.builtins) (data : Py.value) : Py.result t :=
  (do c0 <- Py.get data "curiosity_drive" (Py.VFloat 0.5);
   do c <- Py.float bi c0;
   do r0 <- Py.get data "recovery_rate" (Py.VFloat 0.5);
   do r <- Py.float bi r0;
   do field <- new c r;
   do accs <- Py.get data "accumulators" (Py.VDict ∅);
   do pairs <- Py.items accs;
   from_dict_items bi pairs field)%result.

End CoherenceFieldPy.

(** ** social_phase.py *)

Module SocialPhase.
Inductive t :=
| ShyObserver
| BuildingTrust
| QuietlyBeloved
| ProtectiveGuardian
| StartledRetreat.

(** [phase.value] *)
Definition value (phase : t) : string :=
  match phase with
  | ShyObserver => "ShyObserver"
  | BuildingTrust => "BuildingTrust"
  | QuietlyBeloved => "QuietlyBeloved"
  | ProtectiveGuardian => "ProtectiveGuardian"
  | StartledRetreat => "StartledRetreat"
  end.

Definition index (phase : t) : nat :=
  match phase with
  | ShyObserver => 0
  | BuildingTrust => 1
  | QuietlyBeloved => 2
  | ProtectiveGuardian => 3
  | StartledRetreat => 4
  end.

Definition of_index (n : nat) : t :=
  match n with
  | 0 => ShyObserver
  | 1 => BuildingTrust
  | 2 => QuietlyBeloved
  | 3 => ProtectiveGuardian
  | _ => StartledRetreat
  end.
End SocialPhase.

Module social_phase.

Import SocialPhase.
Local Open Scope Q_scope.

Definition _UPPER_SHY_TO_BUILDING : Q := 0.35.
Definition _LOWER_BUILDING_TO_SHY : Q := 0.28.
Definition _UPPER_BUILDING_TO_BELOVED : Q := 0.55.
Definition _LOWER_BELOVED_TO_BUILDING : Q := 0.45.
Definition _GUARDIAN_TENSION : Q := 0.30.
Definition _STARTLE_TENSION : Q := 0.20.

Definition classify_phase (effective_coh instant : Q) (prev_phase : SocialPhase.t)
  : SocialPhase.t :=
  if Py.ge effective_coh 0.55 && Py.lt instant _GUARDIAN_TENSION
  then ProtectiveGuardian
  else if Py.lt effective_coh 0.35 && Py.lt instant _STARTLE_TENSION
  then StartledRetreat
  else
    match prev_phase with
    | ShyObserver =>
        if Py.ge effective_coh _UPPER_SHY_TO_BUILDING then BuildingTrust
        else ShyObserver
    | BuildingTrust =>
        if Py.lt effective_coh _LOWER_BUILDING_TO_SHY then ShyObserver
        else if Py.ge effective_coh _UPPER_BUILDING_TO_BELOVED then QuietlyBeloved
        else BuildingTrust
    | QuietlyBeloved =>
        if Py.lt effective_coh _LOWER_BELOVED_TO_BUILDING then BuildingTrust
        else QuietlyBeloved
    | ProtectiveGuardian | StartledRetreat =>
        if Py.ge effective_coh _UPPER_BUILDING_TO_BELOVED then QuietlyBeloved
        else if Py.ge effective_coh _UPPER_SHY_TO_BUILDING then BuildingTrust
        else ShyObserver
    end.

(** The caller's loop: the phase of one tick is the previous phase of the
    next ([self._phase = classify_phase(eff_coh, instant, self._phase)]). *)
Fixpoint run_ticks (prev_phase : SocialPhase.t) (ticks : list (Q * Q))
  : list SocialPhase.t :=
  match ticks with
  | [] => []
  | (effective_coh, instant) :: rest =>
      let phase := classify_phase effective_coh instant prev_phase in
      phase :: run_ticks phase rest
  end.

End social_phase.

(** ** text_context_key.py *)

(** The string methods the module uses.  Text is modelled as ASCII: a byte
    above 127 is neither a letter nor white space. *)
Module PyStr.

Definition is_space (c : ascii) : bool :=
  let n := nat_of_ascii c in
  ((9 <=? n) && (n <=? 13) || (28 <=? n) && (n <=? 32))%nat.

Definition lower_char (c : ascii) : ascii :=
  let n := nat_of_ascii c in
  if ((65 <=? n) && (n <=? 90))%nat then ascii_of_nat (n + 32) else c.

(** [s.lower()] *)
Fixpoint lower (s : string) : string :=
  match s with
  | EmptyString => EmptyString
  | String c rest => String (lower_char c) (lower rest)
  end.

(** [s.split()]: the maximal runs of non-space characters; [cur] is the
    run being read. *)
Fixpoint split_from (cur s : string) : list string :=
  match s with
  | EmptyString =>
      match cur with
      | EmptyString => []
      | _ => [cur]
      end
  | String c rest =>
      if is_space c then
        match cur with
        | EmptyString => split_from EmptyString rest
        | _ => cur :: split_from EmptyString rest
        end
      else split_from (cur ++ String c EmptyString) rest
  end.

Definition split (s : string) : list string := split_from EmptyString s.

Fixpoint lstrip (chars : list ascii) (s : list ascii) : list ascii :=
  match s with
  | [] => []
  | c :: rest =>
      if existsb (Ascii.eqb c) chars then lstrip chars rest else s
  end.

(** [s.strip(chars)] *)
Definition strip (chars : list ascii) (s : string) : string :=
  string_of_list_ascii
    (rev (lstrip chars (rev (lstrip chars (list_ascii_of_string s))))).

(** Membership of a word in a set of words. *)
Definition mem (w : string) (ws : list string) : bool :=
  existsb (String.eqb w) ws.

(** [len(tokens & keywords)] for a duplicate-free [keywords]. *)
Definition common (tokens keywords : list string) : Z :=
  Z.of_nat (length (filter (fun k => mem k tokens) keywords)).

(** [s.strip()], and the truth value of a string. *)
Fixpoint lstrip_space (s : list ascii) : list ascii :=
  match s with
  | [] => []
  | c :: rest => if is_space c then lstrip_space rest else s
  end.

Definition strip_space (s : string) : string :=
  string_of_list_ascii
    (rev (lstrip_space (rev (lstrip_space (list_ascii_of_string s))))).

Definition truthy (s : string) : bool :=
  match s with
  | EmptyString => false
  | String _ _ => true
  end.

(** The strings of the model stand for Python strings of ASCII characters:
    on those [is_space] is the white space of [split()] and [strip()] and
    [lower_char] is [lower()].  Python also splits and strips at white space
    outside ASCII (the no-break space and others) and lowers letters outside
    ASCII; what is stated of an arbitrary text is stated of ASCII text. *)
Definition is_ascii (s : string) : bool :=
  forallb (fun c => (nat_of_ascii c <? 128)%nat) (list_ascii_of_string s).

End PyStr.

(** ** social_phase.py, the prompt templates *)

#[global] Instance SocialPhase_eq_dec : EqDecision SocialPhase.t.
Proof. solve_decision. Defined.

#[global] Instance SocialPhase_countable : Countable SocialPhase.t.
Proof.
  refine (inj_countable' SocialPhase.index SocialPhase.of_index _).
  intros []; reflexivity.
Defined.

Definition DEFAULT_PHASE_TEMPLATES : gmap SocialPhase.t string :=
  <[SocialPhase.ShyObserver :=
      "You are early in exploring this topic with the user. Be helpful but measured. Ask clarifying questions. Don't assume familiarity. Provide balanced perspectives without strong opinions."]>
  (<[SocialPhase.BuildingTrust :=
      "You have some history with the user on this topic. You can reference prior conversations. Offer more specific suggestions. Begin to show personality."]>
  (<[SocialPhase.QuietlyBeloved :=
      "You have deep trust with the user in this domain. Be direct, opinionated, and personal. Push back when you disagree. Reference shared history. Offer unsolicited insights. This is a mature relationship."]>
  (<[SocialPhase.ProtectiveGuardian :=
      "The user is discussing this familiar topic under stress or in an unusual way. Be supportive but alert. Don't match their energy — ground them. Use your deep knowledge of their patterns to help."]>
  (<[SocialPhase.StartledRetreat :=
      "Sensitive territory with insufficient trust. Be extremely careful. Offer support without probing. Suggest professional resources if appropriate. Do not explore further without explicit invitation."]>
     ∅)))).

(** [d[key]] on a dict of templates. *)
Definition template_item {K} `{Countable K} (d : gmap K string) (key : K)
  : Py.result string :=
  match d !! key with
  | Some x => Py.Ok x
  | None => Py.Raise Py.KeyError
  end.

(** [source.get(phase, DEFAULT_PHASE_TEMPLATES[phase])]: the default is
    looked up before [get] is called. *)
Definition get_system_prompt (phase : SocialPhase.t)
    (templates : option (gmap SocialPhase.t string)) : Py.result string :=
  let source :=
    match templates with
    | Some t => t
    | None => DEFAULT_PHASE_TEMPLATES
    end in
  (do fallback <- template_item DEFAULT_PHASE_TEMPLATES phase;
   Py.Ok match source !! phase with
         | Some x => x
         | None => fallback
         end)%result.

(** [{phase.value: template for phase, template in DEFAULT_PHASE_TEMPLATES.items()}] *)
Definition PHASE_TEMPLATES : gmap string string :=
  fold_left (fun d pt => <[SocialPhase.value (fst pt) := snd pt]> d)
            (map_to_list DEFAULT_PHASE_TEMPLATES) ∅.

Definition get_prompt_injection (phase : SocialPhase.t)
    (custom_templates : option (gmap string string)) : Py.result string :=
  let phase_name := SocialPhase.value phase in
  match custom_templates with
  | Some custom =>
      if negb (bool_decide (custom = ∅)) && bool_decide (is_Some (custom !! phase_name))
      then template_item custom phase_name
      else template_item PHASE_TEMPLATES phase_name
  | None => template_item PHASE_TEMPLATES phase_name
  end.

(** The separator of [build_system_prompt]: two line feeds. *)
Definition blank_line : string :=
  String (ascii_of_nat 10) (String (ascii_of_nat 10) EmptyString).

Definition build_system_prompt (base_prompt : string) (phase : SocialPhase.t)
    (custom_templates : option (gmap string string)) : Py.result string :=
  (do injection <- get_prompt_injection phase custom_templates;
   if PyStr.truthy (PyStr.strip_space base_prompt)
   then Py.Ok (String.append injection (String.append blank_line base_prompt))
   else Py.Ok injection)%result.

(** ** text_context_key.py, continued *)

Definition _FNV_OFFSET_BASIS : Z := 2166136261.
Definition _FNV_PRIME : Z := 16777619.

(** The body of the inner loop of [_fnv1a], for one [byte_pos]. *)
Definition _fnv1a_byte (v : Z) (h byte_pos : Z) : Z :=
  let byte := Z.land (Z.shiftr v (byte_pos * 8)) 255 in
  let h := Z.lxor h byte in
  Z.land (h * _FNV_PRIME) 4294967295.

Definition _fnv1a (values : list Z) : Z :=
  fold_left
    (fun h v => fold_left (_fnv1a_byte v) [0; 1; 2; 3]%Z h)
    values _FNV_OFFSET_BASIS.

Module ConversationDepth.
Import Py.

Definition SHALLOW : Z := 0.
Definition MODERATE : Z := 1.
Definition DEEP : Z := 2.

Definition from_turn_count (turn_count : Z) : Z :=
  if (turn_count <=? 3)%Z then SHALLOW
  else if (turn_count <=? 15)%Z then MODERATE
  else DEEP.

Definition from_label (label : string) : result Z :=
  let l := PyStr.lower label in
  if String.eqb l "shallow" then Ok 0%Z
  else if String.eqb l "moderate" then Ok 1%Z
  else if String.eqb l "deep" then Ok 2%Z
  else Raise ValueError.

(** [_LABELS.get(v, "moderate")] *)
Definition label (v : Z) : string :=
  if (v =? 0)%Z then "shallow"
  else if (v =? 1)%Z then "moderate"
  else if (v =? 2)%Z then "deep"
  else "moderate".
End ConversationDepth.

Module EmotionalRegister.
Import Py.

Definition NEUTRAL : Z := 0.
Definition WARM : Z := 1.
Definition VULNERABLE : Z := 2.
Definition INTENSE : Z := 3.

Definition _WARM_WORDS : list string :=
  ["love"; "thank"; "grateful"; "appreciate"; "wonderful"; "happy"; "joy"; "friend";
   "family"; "care"; "kind"; "warm"; "nice"].
Definition _VULNERABLE_WORDS : list string :=
  ["anxiety"; "afraid"; "scared"; "nervous"; "worry"; "struggle"; "difficult"; "hard";
   "overwhelm"; "sad"; "loss"; "grief"; "depressed"; "lonely"; "alone"; "cry"; "hurt"].
Definition _INTENSE_WORDS : list string :=
  ["urgent"; "emergency"; "crisis"; "panic"; "furious"; "rage"; "hate"; "desperate";
   "critical"; "immediately"; "now"; "must"].

(** [words & S] is non-empty. *)
Definition meets (words S : list string) : bool :=
  existsb (fun w => PyStr.mem w S) words.

Definition from_text (text : string) : Z :=
  let words := PyStr.split (PyStr.lower text) in
  if meets words _INTENSE_WORDS then INTENSE
  else if meets words _VULNERABLE_WORDS then VULNERABLE
  else if meets words _WARM_WORDS then WARM
  else NEUTRAL.

Definition from_label (label : string) : result Z :=
  let l := PyStr.lower label in
  if String.eqb l "neutral" then Ok 0%Z
  else if String.eqb l "warm" then Ok 1%Z
  else if String.eqb l "vulnerable" then Ok 2%Z
  else if String.eqb l "intense" then Ok 3%Z
  else Raise ValueError.

(** [_LABELS.get(v, "neutral")] *)
Definition label (v : Z) : string :=
  if (v =? 0)%Z then "neutral"
  else if (v =? 1)%Z then "warm"
  else if (v =? 2)%Z then "vulnerable"
  else if (v =? 3)%Z then "intense"
  else "neutral".
End EmotionalRegister.

Module TimeOfDay.
Definition MORNING : Z := 0.
Definition AFTERNOON : Z := 1.
Definition EVENING : Z := 2.
Definition NIGHT : Z := 3.

Definition from_hour (hour : Z) : Z :=
  if ((5 <=? hour) && (hour <? 12))%Z then MORNING
  else if ((12 <=? hour) && (hour <? 17))%Z then AFTERNOON
  else if ((17 <=? hour) && (hour <? 21))%Z then EVENING
  else NIGHT.

(** [TimeOfDay.now()], given the hour [time.localtime().tm_hour] reads
    from the clock. *)
Definition now (tm_hour : Z) : Z :=
  if ((5 <=? tm_hour) && (tm_hour <? 12))%Z then MORNING
  else if ((12 <=? tm_hour) && (tm_hour <? 17))%Z then AFTERNOON
  else if ((17 <=? tm_hour) && (tm_hour <? 21))%Z then EVENING
  else NIGHT.
End TimeOfDay.

Module SessionPhase.
Definition OPENING : Z := 0.
Definition MIDDLE : Z := 1.
Definition CLOSING : Z := 2.

Definition from_turn_count (turn_count : Z) : Z :=
  if (turn_count <=? 3)%Z then OPENING
  else if (turn_count <=? 20)%Z then MIDDLE
  else CLOSING.
End SessionPhase.

Definition _KEYWORD_CLUSTERS : list (list string * Z) :=
  [
      (["finance"; "money"; "invest"; "stock"; "market"; "budget"; "saving"; "wealth";
        "portfolio"; "dividend"; "compound"; "interest"; "bond"; "fund"; "personal";
        "financial"],
       0%Z);
      (["tax"; "taxation"; "irs"; "deduction"; "filing"; "return"; "income"; "withhold"],
       1%Z);
      (["estate"; "inheritance"; "will"; "trust"; "beneficiary"; "probate"; "planning";
        "heir"],
       2%Z);
      (["crypto"; "bitcoin"; "ethereum"; "blockchain"; "defi"; "nft"; "token"; "wallet";
        "cryptocurrency"],
       3%Z);
      (["health"; "exercise"; "fitness"; "gym"; "workout"; "diet"; "nutrition";
        "weight"; "run"; "yoga"; "meditat"],
       4%Z);
      (["medical"; "doctor"; "symptom"; "diagnosis"; "treatment"; "medication";
        "hospital"; "surgery"; "therapy"],
       5%Z);
      (["mental"; "anxiety"; "depression"; "stress"; "counseling"; "psychology";
        "mindful"; "emotional"; "wellbeing"],
       6%Z);
      (["sleep"; "insomnia"; "rest"; "fatigue"; "tired"; "nap"; "circadian"],
       7%Z);
      (["code"; "programming"; "software"; "developer"; "python"; "javascript"; "rust";
        "algorithm"; "debug"; "git"],
       8%Z);
      (["ai"; "artificial"; "intelligence"; "machine"; "learning"; "neural"; "model";
        "llm"; "gpt"; "claude"],
       9%Z);
      (["robot"; "autonomous"; "sensor"; "embedded"; "hardware"; "microcontroller"],
       10%Z);
      (["cloud"; "aws"; "azure"; "gcp"; "kubernetes"; "docker"; "devops"; "deploy"],
       11%Z);
      (["relationship"; "partner"; "dating"; "marriage"; "divorce"; "breakup"; "love";
        "romance"; "attraction"],
       12%Z);
      (["family"; "parent"; "child"; "sibling"; "mother"; "father"; "children"],
       13%Z);
      (["friend"; "friendship"; "social"; "community"; "networking"; "connection"],
       14%Z);
      (["conflict"; "argument"; "disagree"; "boundary"; "communication"; "assertive"],
       15%Z);
      (["career"; "job"; "work"; "resume"; "interview"; "salary"; "promotion";
        "workplace"; "professional"],
       16%Z);
      (["startup"; "entrepreneur"; "business"; "venture"; "founder"; "company"],
       17%Z);
      (["management"; "leadership"; "team"; "meeting"; "productivity"; "agile"],
       18%Z);
      (["creative"; "design"; "art"; "write"; "writing"; "author"; "paint"; "draw"],
       19%Z);
      (["study"; "learn"; "course"; "university"; "school"; "education"; "degree"],
       20%Z);
      (["science"; "research"; "experiment"; "hypothesis"; "data"; "analysis"],
       21%Z);
      (["math"; "calculus"; "algebra"; "statistic"; "probability"; "number"],
       22%Z);
      (["history"; "historical"; "ancient"; "civilization"; "war"; "empire"],
       23%Z);
      (["food"; "cook"; "recipe"; "restaurant"; "eat"; "cuisine"; "meal"],
       24%Z);
      (["travel"; "trip"; "vacation"; "flight"; "hotel"; "country"; "abroad"],
       25%Z);
      (["home"; "house"; "interior"; "renovate"; "garden"; "decor"; "furniture"],
       26%Z);
      (["hobby"; "game"; "sport"; "music"; "movie"; "book"; "entertainment"],
       27%Z);
      (["philosophy"; "ethics"; "moral"; "value"; "meaning"; "purpose"; "existential"],
       28%Z);
      (["religion"; "spiritual"; "faith"; "belief"; "prayer"; "god"; "universe"],
       29%Z);
      (["politic"; "government"; "policy"; "vote"; "democracy"; "election"],
       30%Z);
      (["environment"; "climate"; "sustainable"; "eco"; "green"; "carbon"],
       31%Z)
  ].

(** The characters [".,?!;:'"] and the double quote that [_keyword_cluster]
    strips from both ends of a word. *)
Definition _PUNCTUATION : list ascii :=
  list_ascii_of_string ".,?!;:'" ++ [ascii_of_nat 34].

Definition _keyword_cluster (text : string) : Z :=
  let tokens := map (PyStr.strip _PUNCTUATION) (PyStr.split (PyStr.lower text)) in
  fst
    (fold_left
       (fun (best : Z * Z) (entry : list string * Z) =>
          let (best_cluster, best_score) := best in
          let (keywords, cluster) := entry in
          let score := PyStr.common tokens keywords in
          if (best_score <? score)%Z then (cluster, score)
          else (best_cluster, best_score))
       _KEYWORD_CLUSTERS (32, 0)%Z).

(** What the optional package [sentence_transformers] does during one call:
    its import raises ImportError, or the construction
    [SentenceTransformer("all-MiniLM-L6-v2")] raises (the model cannot be
    loaded), or the model is there, built by this call or kept from an earlier
    one. *)
Inductive sentence_transformers :=
| NotInstalled
| ModelFails (e : Py.exn)
| ModelLoaded.

(** [_sentence_transformer_cluster]: only ImportError is caught, so an
    exception of the construction is passed on; with the model loaded the
    centroids are still [None] (the package never assigns them anything else),
    the branch that encodes the text is not taken and the function ends in
    its last line, the keyword match. *)
Definition _sentence_transformer_cluster (st : sentence_transformers)
    (text : string) : Py.result Z :=
  match st with
  | NotInstalled => Py.Ok (_keyword_cluster text)
  | ModelFails e => Py.Raise e
  | ModelLoaded => Py.Ok (_keyword_cluster text)
  end.

Module TextContextKey.
Import Py.
Local Open Scope result_scope.

Record t := mk {
  topic_domain : Z;
  conversation_depth : Z;
  emotional_register : Z;
  time_of_day : Z;
  session_phase : Z
}.

Definition in_range (lo v hi : Z) : bool := ((lo <=? v) && (v <=? hi))%Z.

(** The constructor with the checks of [__post_init__]. *)
Definition new (topic_domain conversation_depth emotional_register
                time_of_day session_phase : Z) : result t :=
  if negb (in_range 0 topic_domain 63) then Raise ValueError
  else if negb (in_range 0 conversation_depth 2) then Raise ValueError
  else if negb (in_range 0 emotional_register 3) then Raise ValueError
  else if negb (in_range 0 time_of_day 3) then Raise ValueError
  else if negb (in_range 0 session_phase 2) then Raise ValueError
  else Ok (mk topic_domain conversation_depth emotional_register
              time_of_day session_phase).

Definition context_hash (self : t) : Z :=
  _fnv1a [topic_domain self; conversation_depth self; emotional_register self;
          time_of_day self; session_phase self].

(** The defaults of the keyword parameters of [from_text]. *)
Definition depth_default : value := VStr "moderate".
Definition register_default : value := VNone.

(** [from_text(text, depth=..., register=..., turn_count=..., use_embeddings=...)].
    A keyword argument the caller leaves out is [None] here and takes the
    default of the signature; [tm_hour] is the hour the clock gives to
    [TimeOfDay.now()], [st] what the optional package does if it is asked. *)
Definition from_text (bi : builtins) (st : sentence_transformers) (tm_hour : Z)
    (text : string) (depth register : option value) (turn_count : Z)
    (use_embeddings : bool)
  : result t :=
  let depth := default depth_default depth in
  let register := default register_default register in
  do topic <-
    (if use_embeddings then _sentence_transformer_cluster st text
     else Ok (_keyword_cluster text));
  do depth_int <-
    match depth with
    | VStr label => ConversationDepth.from_label label
    | VInt z => Ok z
    | VBool b => Ok (Z.b2z b)
    | _ => Ok (ConversationDepth.from_turn_count turn_count)
    end;
  do register_int <-
    match register with
    | VNone => Ok (EmotionalRegister.from_text text)
    | VStr label => EmotionalRegister.from_label label
    | other => Py.int bi other
    end;
  new topic depth_int register_int (TimeOfDay.now tm_hour)
      (SessionPhase.from_turn_count turn_count).

(** [feature_vector]: each field over its maximum. *)
Definition feature_vector (self : t) : list Q :=
  [inject_Z (topic_domain self) / 63.0;
   inject_Z (conversation_depth self) / 2.0;
   inject_Z (emotional_register self) / 3.0;
   inject_Z (time_of_day self) / 3.0;
   inject_Z (session_phase self) / 2.0]%Q.

End TextContextKey.

(** ** persistence.py *)

Definition CCF_SCHEMA_VERSION : Z := 1.

(** The filesystem under the package: one directory, a file name mapped to
    what the file holds.  A file's bytes are classified by what
    [open(path, encoding="utf-8")] and [json.load] make of them; [json.dump]
    writes a [Document]. *)
Module Fs.
Import Py.

Inductive content :=
| Document (state : value)  (** JSON text that [json.load] parses to [state] *)
| Garbled (raw : string)    (** text that [json.load] rejects with JSONDecodeError *)
| Undecodable               (** bytes that are not UTF-8: reading raises UnicodeDecodeError *)
| Unreadable.               (** [open] raises OSError *)

(** The step of [save], if any, at which the filesystem raises OSError.
    A write that fails leaves the text written so far in the file. *)
Inductive fault :=
| NoFault
| FailMkdir
| FailMkstemp
| FailWrite (partial : string)
| FailReplace.

(** What the environment supplies to one call of [save]: the clock, the
    name [tempfile.mkstemp] picks, the fault, and whether the [os.unlink]
    of the cleanup raises OSError as well, leaving the file in place. *)
Record env := {
  now : string;
  tmp_name : string;
  fault_at : fault;
  unlink_fails : bool
}.

(** [disk] is the current directory; [seen] lists every state the
    directory has been in, latest first. *)
Record world := {
  disk : gmap string content;
  seen : list (gmap string content)
}.

Definition start (d : gmap string content) : world :=
  {| disk := d; seen := [d] |}.

Definition IO (A : Type) : Type := world -> result A * world.

Definition ret {A} (a : A) : IO A := fun w => (Ok a, w).
Definition raise {A} (e : exn) : IO A := fun w => (Raise e, w).
Definition lift {A} (r : result A) : IO A := fun w => (r, w).
Definition bind {A B} (m : IO A) (k : A -> IO B) : IO B :=
  fun w =>
    match m w with
    | (Ok a, w') => k a w'
    | (Raise e, w') => (Raise e, w')
    end.

(** [try: body except Exception as e: handler e] *)
Definition try_except {A} (body : IO A) (handler : exn -> IO A) : IO A :=
  fun w =>
    match body w with
    | (Ok a, w') => (Ok a, w')
    | (Raise e, w') => handler e w'
    end.

Definition commit (d : gmap string content) (w : world) : world :=
  {| disk := d; seen := d :: seen w |}.

(** [path.parent.mkdir(parents=True, exist_ok=True)] *)
Definition mkdir_parents (ev : env) : IO unit :=
  fun w =>
    match fault_at ev with
    | FailMkdir => (Raise OSError, w)
    | _ => (Ok tt, w)
    end.

(** [tempfile.mkstemp(dir=path.parent, suffix=".ccf.tmp")]: creates an
    empty file and returns its name. *)
Definition mkstemp (ev : env) : IO string :=
  fun w =>
    match fault_at ev with
    | FailMkstemp => (Raise OSError, w)
    | _ => (Ok (tmp_name ev),
            commit (<[tmp_name ev := Garbled EmptyString]> (disk w)) w)
    end.

(** [with os.fdopen(fd, "w") as f: json.dump(state, f, indent=2)] *)
Definition json_dump (ev : env) (tmp_path : string) (state : value) : IO unit :=
  fun w =>
    match fault_at ev with
    | FailWrite partial =>
        (Raise OSError, commit (<[tmp_path := Garbled partial]> (disk w)) w)
    | _ => (Ok tt, commit (<[tmp_path := Document state]> (disk w)) w)
    end.

(** [os.replace(src, dst)]: an atomic rename over [dst]. *)
Definition os_replace (ev : env) (src dst : string) : IO unit :=
  fun w =>
    match fault_at ev with
    | FailReplace => (Raise OSError, w)
    | _ =>
        match disk w !! src with
        | Some c => (Ok tt, commit (<[dst := c]> (delete src (disk w))) w)
        | None => (Raise OSError, w)
        end
    end.

(** [os.unlink(p)] *)
Definition os_unlink (ev : env) (p : string) : IO unit :=
  fun w =>
    if unlink_fails ev then (Raise OSError, w)
    else
      match disk w !! p with
      | Some _ => (Ok tt, commit (delete p (disk w)) w)
      | None => (Raise OSError, w)
      end.

(** [open(path, encoding="utf-8")] followed by [json.load(f)]. *)
Definition json_load (c : content) : result value :=
  match c with
  | Document state => Ok state
  | Garbled _ => Raise JSONDecodeError
  | Undecodable => Raise UnicodeDecodeError
  | Unreadable => Raise OSError
  end.

End Fs.

Declare Scope io_scope.
Delimit Scope io_scope with io.
Notation "'do' x <- e ; k" := (Fs.bind e (fun x => k))
  (at level 10, x name, e at level 100, k at level 200) : io_scope.

Module CcfPersistence.
Import Py Fs.
Local Open Scope Q_scope.

(** The dict [load] builds for one context, and the personality dict. *)
Record entry := mk_entry {
  coherence : Q;
  earned_floor : Q;
  interaction_count : Z;
  last_phase : string
}.

Record personality := mk_personality {
  curiosity : Q;
  recovery : Q
}.

Definition lookup_default (d : gmap string value) (key : string) (default : value)
  : value :=
  match d !! key with
  | Some x => x
  | None => default
  end.

(** [d[key]] on a dict. *)
Definition item (d : gmap string value) (key : string) : result value :=
  match d !! key with
  | Some x => Ok x
  | None => Raise KeyError
  end.

Fixpoint mapM {A B} (f : A -> result B) (l : list A) : result (list B) :=
  match l with
  | [] => Ok []
  | a :: rest =>
      (do b <- f a;
       do bs <- mapM f rest;
       Ok (b :: bs))%result
  end.

Section WithBuiltins.
Variable bi : builtins.

(** One element of the ["contexts"] list comprehension of [save]. *)
Definition context_record (item_ : Z * gmap string value) : result value :=
  (let (ctx_hash, acc) := item_ in
   do c0 <- item acc "coherence";
   do c <- Py.float bi c0;
   do f0 <- item acc "earned_floor";
   do f <- Py.float bi f0;
   do n0 <- item acc "interaction_count";
   do n <- Py.int bi n0;
   let p := Py.str bi (lookup_default acc "last_phase" (VStr "ShyObserver")) in
   Ok (VDict (<["ctx_hash" := VInt ctx_hash]>
             (<["coherence" := VFloat c]>
             (<["earned_floor" := VFloat f]>
             (<["interaction_count" := VInt n]>
             (<["last_phase" := VStr p]> ∅)))))))%result.

(** The [state] dict of [save]. *)
Definition snapshot (saved_at : string)
    (accumulators : gmap Z (gmap string value))
    (personality : gmap string value) (ccf_version : string) : result value :=
  (do cur <- Py.float bi (lookup_default personality "curiosity" (VFloat 0.5));
   do rec <- Py.float bi (lookup_default personality "recovery" (VFloat 0.5));
   do contexts <- mapM context_record (map_to_list accumulators);
   Ok (VDict (<["version" := VInt CCF_SCHEMA_VERSION]>
             (<["ccf_version" := VStr ccf_version]>
             (<["saved_at" := VStr saved_at]>
             (<["personality" :=
                  VDict (<["curiosity" := VFloat cur]>
                        (<["recovery" := VFloat rec]> ∅))]>
             (<["contexts" := VList contexts]> ∅)))))))%result.

Definition save (ev : env) (accumulators : gmap Z (gmap string value))
    (personality : gmap string value) (path : string) (ccf_version : string)
  : IO unit :=
  (do state <- lift (snapshot (now ev) accumulators personality ccf_version);
   do _u <- mkdir_parents ev;
   do tmp_path <- mkstemp ev;
   try_except
     (do _u <- json_dump ev tmp_path state;
      os_replace ev tmp_path path)
     (fun e =>
        do _u <- try_except (os_unlink ev tmp_path)
                   (fun e' =>
                      match e' with
                      | OSError => ret tt
                      | _ => raise e'
                      end);
        raise e))%io.

(** The body of the [try] in the loop of [load]. *)
Definition load_record (ctx_record : value) : result (Z * entry) :=
  (do h0 <- subscript ctx_record "ctx_hash";
   do ctx_hash <- Py.int bi h0;
   do c0 <- get ctx_record "coherence" (VFloat 0.0);
   do c <- Py.float bi c0;
   do f0 <- get ctx_record "earned_floor" (VFloat 0.0);
   do f <- Py.float bi f0;
   do n0 <- get ctx_record "interaction_count" (VInt 0);
   do n <- Py.int bi n0;
   do p0 <- get ctx_record "last_phase" (VStr "ShyObserver");
   Ok (ctx_hash, mk_entry c f n (Py.str bi p0)))%result.

(** [except (KeyError, ValueError, TypeError)], subclasses included. *)
Definition skipped (e : exn) : bool :=
  match e with
  | KeyError | ValueError | TypeError
  | JSONDecodeError | UnicodeDecodeError => true
  | AttributeError | OSError | CcfLoadError | OverflowError => false
  end.

Fixpoint load_contexts (records : list value) (accumulators : gmap Z entry)
  : result (gmap Z entry) :=
  match records with
  | [] => Ok accumulators
  | ctx_record :: rest =>
      match load_record ctx_record with
      | Ok (ctx_hash, e) => load_contexts rest (<[ctx_hash := e]> accumulators)
      | Raise e =>
          if skipped e then load_contexts rest accumulators else Raise e
      end
  end.

Definition load (d : gmap string content) (path : string)
  : result (option (gmap Z entry) * option personality) :=
  match d !! path with
  | None => Ok (None, None)
  | Some c =>
      match json_load c with
      | Raise JSONDecodeError | Raise OSError => Ok (None, None)
      | Raise e => Raise e
      | Ok state =>
          (do version <- get state "version" (VInt 1);
           do newer <- gt_int version CCF_SCHEMA_VERSION;
           if (newer : bool) then Raise CcfLoadError
           else
             do p1 <- get state "personality" (VDict ∅);
             do c0 <- get p1 "curiosity" (VFloat 0.5);
             do cur <- Py.float bi c0;
             do p2 <- get state "personality" (VDict ∅);
             do r0 <- get p2 "recovery" (VFloat 0.5);
             do rec <- Py.float bi r0;
             do contexts <- get state "contexts" (VList []);
             do records <- iter contexts;
             do accumulators <- load_contexts records ∅;
             Ok (Some accumulators, Some (mk_personality cur rec)))%result
      end
  end.

(** The statements of [load] that follow the version check, as a function of
    the parsed object; [load] is related to it by [load_object] below. *)
Definition load_body (m : gmap string value)
  : result (option (gmap Z entry) * option personality) :=
  (do p1 <- get (VDict m) "personality" (VDict ∅);
   do c0 <- get p1 "curiosity" (VFloat 0.5);
   do cur <- Py.float bi c0;
   do p2 <- get (VDict m) "personality" (VDict ∅);
   do r0 <- get p2 "recovery" (VFloat 0.5);
   do rec <- Py.float bi r0;
   do contexts <- get (VDict m) "contexts" (VList []);
   do records <- iter contexts;
   do accumulators <- load_contexts records ∅;
   Ok (Some accumulators, Some (mk_personality cur rec)))%result.

End WithBuiltins.



(** The JSON object [save] writes for a typed record. *)
Definition record_value (item_ : Z * entry) : value :=
  VDict (<["ctx_hash" := VInt (fst item_)]>
        (<["coherence" := VFloat (coherence (snd item_))]>
        (<["earned_floor" := VFloat (earned_floor (snd item_))]>
        (<["interaction_count" := VInt (interaction_count (snd item_))]>
        (<["last_phase" := VStr (last_phase (snd item_))]> ∅))))).

(** Text conversions that accept no text, for runs that convert none. *)
Definition no_text : builtins :=
  {| float_of_str := fun _ => None;
     int_of_str := fun _ => None;
     str_of_value := fun _ => EmptyString |}.


End CcfPersistence.

(** ** demo.py, loading and saving the field *)

Module CcfDemo.
Import Py Fs.




End CcfDemo.

(** ** demo.py, the scripted run *)

Definition _HEADLESS_MESSAGES : list string :=
  ["what is compound interest";
   "tell me about index funds";
   "how do I start investing";
   "what is dollar cost averaging";
   "how much should I save each month";
   "explain the 4 percent rule";
   "what are ETFs";
   "should I pay off debt or invest";
   "how do I build an emergency fund";
   "what is a Roth IRA";
   "explain tax advantaged accounts";
   "what is portfolio rebalancing";
   "how do bonds work";
   "what is asset allocation";
   "how do I diversify investments";
   "what is a stock market index";
   "explain dividend investing";
   "what is value investing";
   "how do I evaluate a company";
   "what is a price to earnings ratio";
   "explain market capitalisation";
   "what is inflation and how does it affect savings";
   "how do I protect against inflation";
   "what is a high yield savings account";
   "how do money market funds work";
   "what are Treasury bonds";
   "explain real estate investment trusts";
   "how do I calculate net worth";
   "what is the difference between assets and liabilities";
   "how do I retire early"].

(** The four values one turn of [run_headless] prints: the phase name, the
    effective coherence, the context hash and the turn number. *)
Record headless_line := mk_headless_line {
  phase_label : string;
  coherence_pct : Q;
  ctx_hash_display : Z;
  interaction_count_display : Z
}.

(** The body of the loop of [run_headless] for turn [i]; [tm_hour] is the
    hour the clock shows when [from_text] reads it. *)
Definition headless_turn (bi : Py.builtins) (st : sentence_transformers)
    (tm_hour : Z) (i : Z)
    (field : CoherenceFieldPy.t) (phase : SocialPhase.t)
  : Py.result (headless_line * CoherenceFieldPy.t * SocialPhase.t) :=
  let msg :=
    List.nth (Z.to_nat (i mod Z.of_nat (List.length _HEADLESS_MESSAGES)))
      _HEADLESS_MESSAGES EmptyString in
  (do key <- TextContextKey.from_text bi st tm_hour msg None None i false;
   let ctx_hash := TextContextKey.context_hash key in
   let (acc, field1) := CoherenceFieldPy._get_or_create ctx_hash field in
   let eff := _Accumulator.effective_coherence acc 0.7 in
   let phase' := social_phase.classify_phase eff 0.7 phase in
   let field2 :=
     snd (CoherenceFieldPy.store ctx_hash
            (_Accumulator.positive_interaction acc 0.5 false) field1) in
   Py.Ok (mk_headless_line (SocialPhase.value phase') eff ctx_hash (i + 1),
          field2, phase'))%result.

(** The loop over the turns; [clock i] is the hour during turn [i].  The
    result is what a run that completes has printed. *)
Fixpoint headless_loop (bi : Py.builtins) (st : sentence_transformers)
    (clock : Z -> Z) (turns : list Z)
    (field : CoherenceFieldPy.t) (phase : SocialPhase.t)
  : Py.result (list headless_line) :=
  match turns with
  | [] => Py.Ok []
  | i :: rest =>
      (do step <- headless_turn bi st (clock i) i field phase;
       let '(line, field', phase') := step in
       do lines <- headless_loop bi st clock rest field' phase';
       Py.Ok (line :: lines))%result
  end.

(** [run_headless(args)] with [args.headless_turns = n]; [range(n)] is
    empty for a negative [n]. *)
Definition run_headless (bi : Py.builtins) (st : sentence_transformers)
    (clock : Z -> Z) (n : Z)
  : Py.result (list headless_line) :=
  (do field <- CoherenceFieldPy.new 0.5 0.5;
   headless_loop bi st clock (map Z.of_nat (seq 0 (Z.to_nat n))) field
     SocialPhase.ShyObserver)%result.

(** ** Vocabulary of the specification *)

(** One recorded event on an accumulator, and a run of events. *)
Inductive interaction :=
| PositiveInteraction (curiosity : Q) (alone : bool)
| NegativeInteraction (recovery : Q).

Definition record_interaction (acc : _Accumulator.t) (i : interaction)
  : _Accumulator.t :=
  match i with
  | PositiveInteraction curiosity alone =>
      _Accumulator.positive_interaction acc curiosity alone
  | NegativeInteraction recovery =>
      _Accumulator.negative_interaction acc recovery
  end.

Definition record_all (acc : _Accumulator.t) (calls : list interaction)
  : _Accumulator.t :=
  fold_left record_interaction calls acc.

(** The argument of a call lies in [0, 1]. *)
Definition unit_interval (x : Q) : Prop := (0 <= x /\ x <= 1)%Q.

Definition valid_interaction (i : interaction) : Prop :=
  match i with
  | PositiveInteraction curiosity _ => unit_interval curiosity
  | NegativeInteraction recovery => unit_interval recovery
  end.

(** [0 <= earned_floor <= coherence <= 1] *)
Definition well_formed (acc : _Accumulator.t) : Prop :=
  (0 <= _Accumulator.earned_floor acc
   /\ _Accumulator.earned_floor acc <= _Accumulator.coherence acc
   /\ _Accumulator.coherence acc <= 1)%Q.

(** The hash as the specification words it: the little-endian 4-byte
    encoding of a field, and 32-bit FNV-1a over a byte string. *)
Definition spec_le_bytes4 (v : Z) : list Z :=
  [v mod 256; (v / 256) mod 256; (v / 65536) mod 256; (v / 16777216) mod 256]%Z.

Definition spec_fnv1a32 (bytes : list Z) : Z :=
  fold_left (fun h b => (Z.lxor h b * 16777619) mod 2 ^ 32)%Z bytes 2166136261%Z.

(** The value a little-endian byte string stands for. *)
Fixpoint spec_le_value (bytes : list Z) : Z :=
  match bytes with
  | [] => 0
  | b :: rest => b + 256 * spec_le_value rest
  end%Z.

(** A tick whose effective coherence lies in [0.30, 0.33] and whose instant
    signal does not trigger the startle override. *)
Definition inside_gap (tick : Q * Q) : Prop :=
  (0.30 <= fst tick /\ fst tick <= 0.33 /\ 0.20 <= snd tick /\ snd tick <= 1)%Q.

(** One recorded event on a field, and a run of events. *)
Inductive field_event :=
| FieldPositive (context_hash : Z) (alone : bool)
| FieldNegative (context_hash : Z).

Definition field_record (self : CoherenceFieldPy.t) (ev : field_event)
  : CoherenceFieldPy.t :=
  match ev with
  | FieldPositive context_hash alone =>
      snd (CoherenceFieldPy.positive_interaction context_hash alone self)
  | FieldNegative context_hash =>
      snd (CoherenceFieldPy.negative_interaction context_hash self)
  end.

Definition field_record_all (self : CoherenceFieldPy.t) (events : list field_event)
  : CoherenceFieldPy.t :=
  fold_left field_record events self.

Definition event_hash (ev : field_event) : Z :=
  match ev with
  | FieldPositive context_hash _ => context_hash
  | FieldNegative context_hash => context_hash
  end.

(** Personality in [0, 1] and every accumulator well formed. *)
Definition field_well_formed (self : CoherenceFieldPy.t) : Prop :=
  unit_interval (CoherenceFieldPy.curiosity_drive self)
  /\ unit_interval (CoherenceFieldPy.recovery_rate self)
  /\ map_Forall (fun _ acc => well_formed acc) (CoherenceFieldPy._accumulators self).

(** The three phases with a hysteresis band, in the order of growing trust. *)
Definition settled (phase : SocialPhase.t) : Prop :=
  match phase with
  | SocialPhase.ShyObserver | SocialPhase.BuildingTrust
  | SocialPhase.QuietlyBeloved => True
  | SocialPhase.ProtectiveGuardian | SocialPhase.StartledRetreat => False
  end.

Definition trust_rank (phase : SocialPhase.t) : nat :=
  match phase with
  | SocialPhase.ShyObserver => 0
  | SocialPhase.BuildingTrust => 1
  | SocialPhase.QuietlyBeloved => 2
  | SocialPhase.ProtectiveGuardian => 2
  | SocialPhase.StartledRetreat => 0
  end.

(** Ticks without acute stress (instant at least 0.30) whose effective
    coherence never falls from one tick to the next; [floor] is the effective
    coherence of the tick before. *)
Fixpoint rising (floor : Q) (ticks : list (Q * Q)) : Prop :=
  match ticks with
  | [] => True
  | (effective_coh, instant) :: rest =>
      (floor <= effective_coh)%Q /\ (0.30 <= instant)%Q /\ rising effective_coh rest
  end.

(** A sequence of phases none of which ranks below the one before. *)
Fixpoint never_regresses (prev : SocialPhase.t) (phases : list SocialPhase.t) : Prop :=
  match phases with
  | [] => True
  | phase :: rest =>
      (trust_rank prev <= trust_rank phase)%nat /\ never_regresses phase rest
  end.

(** Every fingerprint the constructor accepts, and the table from each hash
    to the fingerprint that has it. *)
Definition Zrange (n : nat) : list Z := map Z.of_nat (seq 0 n).

Definition valid_keys : list TextContextKey.t :=
  td ← Zrange 64; cd ← Zrange 3; er ← Zrange 4; tod ← Zrange 4; sp ← Zrange 3;
  [TextContextKey.mk td cd er tod sp].

Definition key_eqb (a b : TextContextKey.t) : bool :=
  ((TextContextKey.topic_domain a =? TextContextKey.topic_domain b)
   && (TextContextKey.conversation_depth a =? TextContextKey.conversation_depth b)
   && (TextContextKey.emotional_register a =? TextContextKey.emotional_register b)
   && (TextContextKey.time_of_day a =? TextContextKey.time_of_day b)
   && (TextContextKey.session_phase a =? TextContextKey.session_phase b))%Z.

Definition hash_table : gmap Z TextContextKey.t :=
  list_to_map (map (fun k => (TextContextKey.context_hash k, k)) valid_keys).

Definition found_under_own_hash (table : gmap Z TextContextKey.t)
    (k : TextContextKey.t) : bool :=
  match table !! TextContextKey.context_hash k with
  | Some k' => key_eqb k k'
  | None => false
  end.

(** The loop of [_keyword_cluster] over a table, for any score. *)
Definition best_match (score : list string -> Z) (table : list (list string * Z))
    (init : Z * Z) : Z * Z :=
  fold_left
    (fun (best : Z * Z) (entry : list string * Z) =>
       let (best_cluster, best_score) := best in
       let (keywords, cluster) := entry in
       let s := score keywords in
       if (best_score <? s)%Z then (cluster, s) else (best_cluster, best_score))
    table init.

(** The score of a cluster for a text, as [_keyword_cluster] computes it. *)
Definition cluster_score (text : string) (keywords : list string) : Z :=
  PyStr.common
    (map (PyStr.strip _PUNCTUATION) (PyStr.split (PyStr.lower text))) keywords.


(** Text conversions for integers written as plain decimal numerals:
    [str(k)] prints the digits of [k] with a minus sign if negative, [int(s)]
    reads them back; no text is read as a float. *)
Definition decimal_text : Py.builtins :=
  {| Py.float_of_str := fun _ => None;
     Py.int_of_str := fun s => option_map Z.of_int (NilZero.int_of_string s);
     Py.str_of_value := fun v =>
       match v with
       | Py.VInt k => NilZero.string_of_int (Z.to_int k)
       | _ => EmptyString
       end |}.

(** One item of the ["accumulators"] dict of [CoherenceFieldPy.to_dict]. *)
Definition accumulator_item (bi : Py.builtins) (kv : Z * _Accumulator.t)
  : string * Py.value :=
  (Py.str bi (Py.VInt (fst kv)), Py.VDict (_Accumulator.to_dict (snd kv))).

(** ** Facts about the built-ins *)

Section PyFacts.
Local Open Scope Q_scope.

Lemma lt_true a b : Py.lt a b = true <-> a < b.
Proof.
  unfold Py.lt. rewrite negb_true_iff.
  destruct (Qle_bool b a) eqn:E.
  - apply Qle_bool_iff in E. split; [discriminate | intros H; lra].
  - split; [intros _ | reflexivity].
    apply Qnot_le_lt. intros H. apply Qle_bool_iff in H. congruence.
Qed.

Lemma lt_false a b : Py.lt a b = false <-> b <= a.
Proof.
  destruct (Py.lt a b) eqn:E.
  - apply lt_true in E. split; [discriminate | intros H; lra].
  - split; [intros _ | reflexivity].
    apply Qnot_lt_le. intros H. apply lt_true in H. congruence.
Qed.

Lemma ge_true a b : Py.ge a b = true <-> b <= a.
Proof. unfold Py.ge. apply Qle_bool_iff. Qed.

Lemma ge_false a b : Py.ge a b = false <-> a < b.
Proof.
  destruct (Py.ge a b) eqn:E.
  - apply ge_true in E. split; [discriminate | intros H; lra].
  - split; [intros _ | reflexivity].
    apply Qnot_le_lt. intros H. apply ge_true in H. congruence.
Qed.

(** Python's [min] and [max] against the order. *)
Lemma min_cases a b :
  (b < a /\ Py.min a b = b) \/ (a <= b /\ Py.min a b = a).
Proof.
  unfold Py.min. destruct (Py.lt b a) eqn:E.
  - left. apply lt_true in E. auto.
  - right. apply lt_false in E. auto.
Qed.

Lemma max_cases a b :
  (a < b /\ Py.max a b = b) \/ (b <= a /\ Py.max a b = a).
Proof.
  unfold Py.max. destruct (Py.lt a b) eqn:E.
  - left. apply lt_true in E. auto.
  - right. apply lt_false in E. auto.
Qed.

Lemma min_is_Qmin a b : Py.min a b == Qmin a b.
Proof.
  destruct (min_cases a b) as [[H ->] | [H ->]].
  - symmetry. apply Q.min_r. lra.
  - symmetry. apply Q.min_l. exact H.
Qed.

Lemma max_is_Qmax a b : Py.max a b == Qmax a b.
Proof.
  destruct (max_cases a b) as [[H ->] | [H ->]].
  - symmetry. apply Q.max_r. lra.
  - symmetry. apply Q.max_l. exact H.
Qed.
End PyFacts.

(** Turns the comparisons of the source found in the goal into facts about
    the order of the rationals. *)
Ltac py_compare :=
  repeat match goal with
    | |- context [Py.lt ?a ?b] =>
        let E := fresh "E" in
        destruct (Py.lt a b) eqn:E;
        [apply lt_true in E | apply lt_false in E]
    | |- context [Py.ge ?a ?b] =>
        let E := fresh "E" in
        destruct (Py.ge a b) eqn:E;
        [apply ge_true in E | apply ge_false in E]
    end.

(** ** The accumulator *)

Section AccumulatorFacts.
Local Open Scope Q_scope.
Import _Accumulator.

Lemma positive_interaction_step acc curiosity alone :
  well_formed acc -> unit_interval curiosity ->
  well_formed (positive_interaction acc curiosity alone)
  /\ earned_floor acc <= earned_floor (positive_interaction acc curiosity alone).
Proof.
  unfold well_formed, unit_interval, positive_interaction. cbn.
  intros (H0 & H1 & H2) (C0 & C1).
  destruct (min_cases 1.0 (coherence acc + curiosity * 0.12)) as [[Ha ->] | [Ha ->]];
    match goal with
    | |- context [Py.min ?x ?y] =>
        destruct (min_cases x y) as [[Hb ->] | [Hb ->]]
    end; repeat split; lra.
Qed.

Lemma negative_interaction_step acc recovery :
  well_formed acc -> unit_interval recovery ->
  well_formed (negative_interaction acc recovery)
  /\ earned_floor acc <= earned_floor (negative_interaction acc recovery).
Proof.
  unfold well_formed, unit_interval, negative_interaction. cbn.
  intros (H0 & H1 & H2) (C0 & C1).
  match goal with
  | |- context [Py.max ?x ?y] =>
      destruct (max_cases x y) as [[Hb ->] | [Hb ->]]
  end; repeat split; lra.
Qed.

Lemma record_interaction_step acc i :
  well_formed acc -> valid_interaction i ->
  well_formed (record_interaction acc i)
  /\ earned_floor acc <= earned_floor (record_interaction acc i).
Proof.
  destruct i; cbn; intros.
  - now apply positive_interaction_step.
  - now apply negative_interaction_step.
Qed.

Lemma record_all_well_formed calls : forall acc,
  well_formed acc -> Forall valid_interaction calls ->
  well_formed (record_all acc calls).
Proof.
  induction calls as [|i calls IH]; intros acc Hacc Hcalls; cbn.
  - exact Hacc.
  - inversion Hcalls; subst. apply IH; [|assumption].
    now apply record_interaction_step.
Qed.

(** C1. Floor monotonicity: from an accumulator with
    [0 <= earned_floor <= coherence <= 1], along any sequence of positive and
    negative interactions with arguments in [0, 1], every single call
    leaves [earned_floor] at least as high as it found it, leaves
    [coherence >= earned_floor], and in particular leaves [coherence] no
    lower than the floor that was present when the call ran. *)
Theorem floor_monotone_along_any_run acc calls before call after :
  well_formed acc ->
  Forall valid_interaction calls ->
  calls = before ++ call :: after ->
  let pre := record_all acc before in
  let post := record_interaction pre call in
  earned_floor pre <= earned_floor post
  /\ earned_floor post <= coherence post
  /\ earned_floor pre <= coherence post.
Proof.
  intros Hacc Hcalls -> pre post.
  apply Forall_app in Hcalls as [Hbefore Hrest].
  inversion Hrest as [|? ? Hcall _]; subst.
  assert (Hpre : well_formed pre) by now apply record_all_well_formed.
  destruct (record_interaction_step pre call Hpre Hcall) as [(_ & Hfc & _) Hmono].
  fold post in Hfc, Hmono. repeat split; [assumption | assumption | lra].
Qed.

Lemma floor_monotone_along_any_run_witness :
  let acc := mk 0.5 0.2 3 in
  let calls := [NegativeInteraction 0.1; PositiveInteraction 0.5 false;
                NegativeInteraction 0] in
  let pre := record_all acc [NegativeInteraction 0.1] in
  let post := record_interaction pre (PositiveInteraction 0.5 false) in
  earned_floor pre <= earned_floor post
  /\ earned_floor post <= coherence post
  /\ earned_floor pre <= coherence post.
Proof.
  apply (floor_monotone_along_any_run
           (mk 0.5 0.2 3)
           [NegativeInteraction 0.1; PositiveInteraction 0.5 false;
            NegativeInteraction 0]
           [NegativeInteraction 0.1] (PositiveInteraction 0.5 false)
           [NegativeInteraction 0]).
  - unfold well_formed; cbn; lra.
  - repeat constructor; cbn; lra.
  - reflexivity.
Defined.

(** C8. [positive_interaction] sets [coherence] to
    [min(1.0, coherence + curiosity*0.12)], then [earned_floor] to
    [min(new coherence, earned_floor + curiosity*0.12*0.3)], and adds one to
    [interaction_count]; from a zero accumulator one positive interaction
    with curiosity 0.5 gives coherence 0.06 and floor 0.018, and a negative
    interaction with recovery 0.5 after it gives coherence
    [max(0.018, 0.06 - 0.075) = 0.018]. *)
Theorem positive_interaction_values :
  (forall acc curiosity alone,
      let acc' := positive_interaction acc curiosity alone in
      coherence acc' == Qmin 1.0 (coherence acc + curiosity * 0.12)
      /\ earned_floor acc'
         == Qmin (coherence acc') (earned_floor acc + curiosity * 0.12 * 0.3)
      /\ interaction_count acc' = (interaction_count acc + 1)%Z)
  /\ (let one := positive_interaction new 0.5 false in
      let two := negative_interaction one 0.5 in
      coherence one == 0.06
      /\ earned_floor one == 0.018
      /\ coherence two == Qmax 0.018 (0.06 - 0.075)
      /\ coherence two == 0.018).
Proof.
  split.
  - intros acc curiosity alone acc'. subst acc'.
    unfold positive_interaction; cbn.
    split; [apply min_is_Qmin | split; [apply min_is_Qmin | reflexivity]].
  - cbv zeta.
    assert (Hone : coherence (positive_interaction new 0.5 false) == 0.06)
      by (vm_compute; reflexivity).
    assert (Htwo : coherence (negative_interaction
                                (positive_interaction new 0.5 false) 0.5) == 0.018)
      by (vm_compute; reflexivity).
    split; [exact Hone | split; [vm_compute; reflexivity | split; [| exact Htwo]]].
    rewrite Htwo. symmetry. apply Q.max_l. lra.
Qed.

End AccumulatorFacts.

(** ** The phase classifier *)

Section PhaseFacts.
Local Open Scope Q_scope.
Import SocialPhase social_phase.

Ltac classify :=
  unfold classify_phase, _UPPER_SHY_TO_BUILDING, _LOWER_BUILDING_TO_SHY,
    _UPPER_BUILDING_TO_BELOVED, _LOWER_BELOVED_TO_BUILDING,
    _GUARDIAN_TENSION, _STARTLE_TENSION;
  py_compare; cbn; try reflexivity; try lra.

(** C3. Acute overrides dominate: whatever the previous phase, an effective
    coherence of at least 0.55 with an instant signal below 0.30 gives
    ProtectiveGuardian; otherwise an effective coherence below 0.35 with an
    instant signal below 0.20 gives StartledRetreat; so
    [Classify(0.75, 0.10, QuietlyBeloved) = ProtectiveGuardian] and
    [Classify(0.10, 0.05, ShyObserver) = StartledRetreat]. *)
Theorem acute_overrides_dominate prev effective_coh instant :
  unit_interval instant ->
  (0.55 <= effective_coh -> instant < 0.30 ->
   classify_phase effective_coh instant prev = ProtectiveGuardian)
  /\ (~ (0.55 <= effective_coh /\ instant < 0.30) ->
      effective_coh < 0.35 -> instant < 0.20 ->
      classify_phase effective_coh instant prev = StartledRetreat)
  /\ classify_phase 0.75 0.10 QuietlyBeloved = ProtectiveGuardian
  /\ classify_phase 0.10 0.05 ShyObserver = StartledRetreat.
Proof.
  intros _. split; [| split; [| split; reflexivity]].
  - intros H1 H2. classify.
  - intros _ H1 H2. classify.
Qed.

Lemma acute_overrides_dominate_witness :
  classify_phase 0.75 0.10 QuietlyBeloved = ProtectiveGuardian
  /\ classify_phase 0.2 0.1 BuildingTrust = StartledRetreat.
Proof.
  assert (U : unit_interval 0.1) by (unfold unit_interval; lra).
  split.
  - apply (proj1 (acute_overrides_dominate QuietlyBeloved 0.75 0.10 U)); lra.
  - apply (proj1 (proj2 (acute_overrides_dominate BuildingTrust 0.2 0.1 U))); lra.
Defined.

(** C4, as the claim states it, fails: inside the gap an instant signal
    below 0.20 triggers the startle override, which is tested before the
    hysteresis on the previous phase. *)
Lemma building_trust_startled_inside_gap :
  ~ (forall effective_coh instant,
        0.30 <= effective_coh /\ effective_coh <= 0.33 ->
        unit_interval instant ->
        classify_phase effective_coh instant BuildingTrust = BuildingTrust).
Proof.
  intros H.
  assert (E : classify_phase 0.31 0.1 BuildingTrust = BuildingTrust)
    by (apply H; unfold unit_interval; lra).
  vm_compute in E. discriminate E.
Qed.

Lemma classify_inside_gap tick :
  inside_gap tick ->
  classify_phase (fst tick) (snd tick) BuildingTrust = BuildingTrust.
Proof.
  destruct tick as [effective_coh instant]. unfold inside_gap; cbn.
  intros (H1 & H2 & H3 & H4). classify.
Qed.

(** C4, amended. Hysteresis stability: from BuildingTrust, every tick whose
    effective coherence lies in [0.30, 0.33] and whose instant signal lies in
    [0.20, 1] returns BuildingTrust, so no sequence of such ticks ever moves
    the phase away from BuildingTrust. *)
Theorem hysteresis_stability ticks :
  Forall inside_gap ticks ->
  Forall (eq BuildingTrust) (run_ticks BuildingTrust ticks)
  /\ Forall (fun tick =>
               classify_phase (fst tick) (snd tick) BuildingTrust = BuildingTrust)
            ticks.
Proof.
  intros H. split.
  - induction H as [|[effective_coh instant] ticks Htick _ IH]; cbn.
    + constructor.
    + pose proof (classify_inside_gap (effective_coh, instant) Htick) as E.
      cbn [fst snd] in E. rewrite E.
      constructor; [reflexivity | exact IH].
  - eapply Forall_impl; [exact H |]. apply classify_inside_gap.
Qed.

Lemma hysteresis_stability_witness :
  Forall (eq BuildingTrust)
         (run_ticks BuildingTrust [(0.30, 0.5); (0.33, 0.2); (0.31, 1)]).
Proof.
  apply (hysteresis_stability [(0.30, 0.5); (0.33, 0.2); (0.31, 1)]).
  repeat constructor; cbn; lra.
Defined.

End PhaseFacts.

(** ** The context hash *)

Section HashFacts.
Local Open Scope Z_scope.

Lemma low_byte x : Z.land x 255 = x mod 256.
Proof. change 255 with (Z.ones 8). rewrite Z.land_ones by lia. reflexivity. Qed.

Lemma low_word x : Z.land x 4294967295 = x mod 2 ^ 32.
Proof. change 4294967295 with (Z.ones 32). rewrite Z.land_ones by lia. reflexivity. Qed.

Lemma fnv1a_inner_loop v h :
  fold_left (_fnv1a_byte v) [0; 1; 2; 3] h
  = fold_left (fun h b => (Z.lxor h b * 16777619) mod 2 ^ 32) (spec_le_bytes4 v) h.
Proof.
  unfold spec_le_bytes4, _fnv1a_byte, _FNV_PRIME. cbn [fold_left].
  rewrite !low_byte, !low_word, !Z.shiftr_div_pow2 by lia.
  change (2 ^ (0 * 8)) with 1. change (2 ^ (1 * 8)) with 256.
  change (2 ^ (2 * 8)) with 65536. change (2 ^ (3 * 8)) with 16777216.
  rewrite Z.div_1_r. reflexivity.
Qed.

Lemma fnv1a_outer_loop values : forall h,
  fold_left (fun h v => fold_left (_fnv1a_byte v) [0; 1; 2; 3] h) values h
  = fold_left (fun h b => (Z.lxor h b * 16777619) mod 2 ^ 32)
      (flat_map spec_le_bytes4 values) h.
Proof.
  induction values as [|v values IH]; intros h.
  - reflexivity.
  - cbn [flat_map]. rewrite fold_left_app, <- fnv1a_inner_loop, <- IH.
    reflexivity.
Qed.

Lemma fnv1a_is_spec values :
  _fnv1a values = spec_fnv1a32 (flat_map spec_le_bytes4 values).
Proof. apply fnv1a_outer_loop. Qed.

Lemma spec_fnv1a32_step_range bytes : forall h,
  0 <= h < 2 ^ 32 ->
  0 <= fold_left (fun h b => (Z.lxor h b * 16777619) mod 2 ^ 32) bytes h < 2 ^ 32.
Proof.
  induction bytes as [|b bytes IH]; intros h Hh; cbn [fold_left].
  - exact Hh.
  - apply IH. apply Z.mod_pos_bound. lia.
Qed.

Lemma fnv1a_range values : 0 <= _fnv1a values <= 2 ^ 32 - 1.
Proof.
  rewrite fnv1a_is_spec. unfold spec_fnv1a32.
  pose proof (spec_fnv1a32_step_range (flat_map spec_le_bytes4 values) 2166136261)
    as H.
  lia.
Qed.

(** The four bytes are an encoding: they give the value back. *)
Lemma spec_le_bytes4_faithful v :
  0 <= v < 2 ^ 32 -> spec_le_value (spec_le_bytes4 v) = v.
Proof.
  intros Hv. unfold spec_le_bytes4, spec_le_value.
  assert (H3 : v / 16777216 < 256)
    by (apply Z.div_lt_upper_bound; lia).
  assert (H3' : 0 <= v / 16777216) by (apply Z.div_pos; lia).
  rewrite (Z.mod_small (v / 16777216)) by lia.
  replace (v / 16777216) with (v / 65536 / 256)
    by (rewrite Z.div_div by lia; reflexivity).
  replace (v / 65536) with (v / 256 / 256)
    by (rewrite Z.div_div by lia; reflexivity).
  pose proof (Z.div_mod v 256 ltac:(lia)).
  pose proof (Z.div_mod (v / 256) 256 ltac:(lia)).
  pose proof (Z.div_mod (v / 256 / 256) 256 ltac:(lia)).
  lia.
Qed.

Import TextContextKey.

Lemma new_ok td cd er tod sp k :
  new td cd er tod sp = Py.Ok k ->
  k = mk td cd er tod sp
  /\ 0 <= td <= 63 /\ 0 <= cd <= 2 /\ 0 <= er <= 3 /\ 0 <= tod <= 3 /\ 0 <= sp <= 2.
Proof.
  unfold new, in_range.
  repeat match goal with
    | |- context [(?a <=? ?b)] => destruct (Z.leb_spec a b)
    end; cbn; intros E; try discriminate E.
  injection E as <-. repeat split; lia.
Qed.

(** C2. For every valid fingerprint, [context_hash] is 32-bit FNV-1a (offset
    basis 2166136261, prime 16777619) over the little-endian 4-byte encodings
    of the five fields in declaration order; the result lies in
    [0, 2^32 - 1]; it depends on the five fields only, so fingerprints with
    equal field tuples hash equal. *)
Theorem context_hash_is_fnv1a td cd er tod sp k :
  new td cd er tod sp = Py.Ok k ->
  context_hash k
  = spec_fnv1a32 (spec_le_bytes4 td ++ spec_le_bytes4 cd ++ spec_le_bytes4 er
                  ++ spec_le_bytes4 tod ++ spec_le_bytes4 sp)
  /\ Forall (fun v => spec_le_value (spec_le_bytes4 v) = v) [td; cd; er; tod; sp]
  /\ 0 <= context_hash k <= 2 ^ 32 - 1
  /\ (forall k',
         (topic_domain k', conversation_depth k', emotional_register k',
          time_of_day k', session_phase k') = (td, cd, er, tod, sp) ->
         context_hash k' = context_hash k).
Proof.
  intros Hnew. apply new_ok in Hnew as (-> & ? & ? & ? & ? & ?).
  split; [| split; [| split]].
  - unfold context_hash; cbn [topic_domain conversation_depth emotional_register
                               time_of_day session_phase].
    rewrite fnv1a_is_spec. cbn [flat_map]. rewrite app_nil_r. reflexivity.
  - repeat constructor; apply spec_le_bytes4_faithful; lia.
  - apply fnv1a_range.
  - intros k' E. injection E as E1 E2 E3 E4 E5.
    unfold context_hash. cbn [topic_domain conversation_depth emotional_register
                              time_of_day session_phase].
    congruence.
Qed.

Lemma context_hash_is_fnv1a_witness :
  context_hash (mk 5 1 0 1 1)
  = spec_fnv1a32 [5; 0; 0; 0; 1; 0; 0; 0; 0; 0; 0; 0; 1; 0; 0; 0; 1; 0; 0; 0]
  /\ 0 <= context_hash (mk 5 1 0 1 1) <= 2 ^ 32 - 1.
Proof.
  pose proof (context_hash_is_fnv1a 5 1 0 1 1 (mk 5 1 0 1 1) eq_refl)
    as (H1 & _ & H2 & _).
  split; [exact H1 | exact H2].
Defined.

End HashFacts.

(** ** Deriving a key from text *)

Section FromTextFacts.
Local Open Scope Z_scope.
Import TextContextKey.

(** With the [depth] argument left out, [from_text] takes the default
    ["moderate"] of its signature, a string, so the branch that reads
    [turn_count] is not reached. *)
Lemma from_text_default_depth bi st tm_hour text register turn_count
    use_embeddings k :
  from_text bi st tm_hour text None register turn_count use_embeddings = Py.Ok k ->
  conversation_depth k = ConversationDepth.MODERATE.
Proof.
  unfold from_text. cbn [default depth_default].
  match goal with
  | |- Py.bind ?r _ = _ -> _ => destruct r as [topic|e]
  end; cbn [Py.bind]; [| discriminate].
  change (ConversationDepth.from_label "moderate") with (@Py.Ok Z 1).
  cbn [Py.bind].
  match goal with
  | |- Py.bind ?r _ = _ -> _ => destruct r as [register_int|e]
  end; cbn [Py.bind]; [| discriminate].
  intros H. apply new_ok in H as [-> _]. reflexivity.
Qed.

(** C9, on the code. A call that leaves [depth] out at turn 0 and at turn 20
    gets conversation depth 1 (moderate) both times, where the breakpoints on
    [turn_count] give 0 (shallow) and 2 (deep); the breakpoints are only
    applied when [depth] is passed as a value that is neither a string nor an
    integer, such as [None]. *)
Theorem from_text_depth_ignores_turn_count bi st :
  from_text bi st 10 "hello" None None 0 false = Py.Ok (mk 32 1 0 0 0)
  /\ ConversationDepth.from_turn_count 0 = 0
  /\ from_text bi st 10 "hello" None None 20 false = Py.Ok (mk 32 1 0 0 1)
  /\ ConversationDepth.from_turn_count 20 = 2
  /\ from_text bi st 10 "hello" (Some Py.VNone) None 20 false
     = Py.Ok (mk 32 2 0 0 1).
Proof. repeat split; vm_compute; reflexivity. Qed.

End FromTextFacts.

(** ** The field *)

Section FieldFacts.
Local Open Scope Q_scope.
Import CoherenceFieldPy.

Lemma get_or_create_present context_hash self :
  _accumulators (snd (_get_or_create context_hash self)) !! context_hash
  = Some (fst (_get_or_create context_hash self)).
Proof.
  unfold _get_or_create, bind, read, store, ret.
  destruct (_accumulators self !! context_hash) eqn:E; cbn.
  - exact E.
  - apply lookup_insert_eq.
Qed.

(** C10. The reads [effective_coherence], [raw_coherence] and
    [interaction_count] return the field as they found it, so they never
    insert an accumulator; for a context hash without an accumulator they
    return [min(instant, 0.0)], 0.0 and 0, and the first is 0.0 for every
    instant in [0, 1]; [positive_interaction] and [negative_interaction] do
    create the accumulator. *)
Theorem reads_leave_the_field_unchanged self context_hash instant alone :
  (snd (effective_coherence context_hash instant self) = self
   /\ snd (raw_coherence context_hash self) = self
   /\ snd (interaction_count context_hash self) = self)
  /\ (_accumulators self !! context_hash = None ->
      fst (effective_coherence context_hash instant self) = Py.min instant 0.0
      /\ Py.min instant 0.0 == Qmin instant 0.0
      /\ fst (raw_coherence context_hash self) = 0.0
      /\ fst (interaction_count context_hash self) = 0%Z
      /\ (unit_interval instant ->
          fst (effective_coherence context_hash instant self) == 0)
      /\ is_Some (_accumulators (snd (positive_interaction context_hash alone self))
                  !! context_hash)
      /\ is_Some (_accumulators (snd (negative_interaction context_hash self))
                  !! context_hash)).
Proof.
  split.
  - unfold effective_coherence, raw_coherence, interaction_count, bind, read, ret.
    destruct (_accumulators self !! context_hash); cbn; auto.
  - intros Hnone.
    unfold effective_coherence, raw_coherence, interaction_count, bind, read, ret.
    rewrite Hnone.
    change (Py.lt 0.0 0.3) with true. cbn [fst snd].
    split; [reflexivity |].
    split; [apply min_is_Qmin |].
    split; [reflexivity |].
    split; [reflexivity |].
    split.
    + intros [H0 H1].
      destruct (min_cases instant 0.0) as [[H ->] | [H ->]]; lra.
    + unfold positive_interaction, negative_interaction, bind, read, store.
      destruct (_get_or_create context_hash self) as [acc self']. cbn.
      rewrite !lookup_insert_eq. split; eexists; reflexivity.
Qed.

Lemma reads_leave_the_field_unchanged_witness :
  let self := mk 0.5 0.5 ∅ in
  snd (effective_coherence 7 0.4 self) = self
  /\ fst (effective_coherence 7 0.4 self) == 0
  /\ fst (raw_coherence 7 self) = 0.0
  /\ fst (interaction_count 7 self) = 0%Z.
Proof.
  intros self.
  destruct (reads_leave_the_field_unchanged self 7 0.4 false) as [(H1 & _) H2].
  destruct (H2 eq_refl) as (_ & _ & H3 & H4 & H5 & _).
  split; [exact H1 |].
  split; [apply H5; unfold unit_interval; lra |].
  split; [exact H3 | exact H4].
Defined.

End FieldFacts.

(** ** Persistence *)

Section PersistenceFacts.
Import Py Fs CcfPersistence.
Variable bi : builtins.


Lemma load_record_value it : load_record bi (record_value it) = Ok it.
Proof.
  destruct it as [ctx_hash [c f n p]].
  unfold load_record, record_value, subscript, get.
  simplify_map_eq. reflexivity.
Qed.








(** *** What [load] raises *)

Lemma float_raises v e :
  Py.float bi v = Raise e ->
  e = ValueError \/ e = TypeError \/ e = OverflowError.
Proof.
  destruct v; cbn [Py.float]; try (intros [= <-]; auto); try discriminate.
  - destruct (float_overflows z); [intros [= <-]; auto | discriminate].
  - destruct (float_of_str bi s); [discriminate | intros [= <-]; auto].
Qed.

Lemma int_raises v e :
  Py.int bi v = Raise e -> e = ValueError \/ e = TypeError.
Proof.
  destruct v; cbn [Py.int]; try (intros [= <-]; auto); try discriminate.
  destruct (int_of_str bi s); [discriminate | intros [= <-]; auto].
Qed.

Lemma get_raises v key default e :
  get v key default = Raise e -> e = AttributeError.
Proof. destruct v; cbn; congruence. Qed.

Lemma iter_raises v e : iter v = Raise e -> e = TypeError.
Proof. destruct v; cbn; congruence. Qed.

Lemma gt_int_raises v n e : gt_int v n = Raise e -> e = TypeError.
Proof. destruct v; cbn; congruence. Qed.

(** The exceptions of the body of the [try]: the three the [except] clause
    names, and the OverflowError of [float] on an int too large. *)
Lemma load_record_raises ctx_record e :
  load_record bi ctx_record = Raise e ->
  e = KeyError \/ e = ValueError \/ e = TypeError \/ e = OverflowError.
Proof.
  unfold load_record.
  destruct ctx_record as [| | | | | |m];
    try (cbn; intros [= <-]; auto).
  cbn [subscript get].
  destruct (m !! "ctx_hash"); cbn [Py.bind]; [| intros [= <-]; auto].
  repeat match goal with
    | |- Py.bind ?r _ = _ -> _ =>
        let E := fresh "E" in
        destruct r eqn:E; cbn [Py.bind];
        [| first [discriminate E
                 | intros [= <-];
                   first [apply float_raises in E; tauto
                         | apply int_raises in E; tauto]]]
    end.
  discriminate.
Qed.

(** The loop passes on only what the [except] clause does not name. *)
Lemma load_contexts_raises records : forall accumulators e,
  load_contexts bi records accumulators = Raise e -> e = OverflowError.
Proof.
  induction records as [|r records IH]; intros accumulators e;
    cbn [load_contexts]; [discriminate |].
  destruct (load_record bi r) as [[ctx_hash x]|x] eqn:E; [apply IH |].
  destruct (skipped x) eqn:Hx; [apply IH |].
  intros [= <-].
  destruct (load_record_raises _ _ E) as [-> | [-> | [-> | ->]]];
    first [discriminate Hx | reflexivity].
Qed.

Lemma load_contexts_app before after : forall accumulators,
  load_contexts bi (before ++ after) accumulators
  = Py.bind (load_contexts bi before accumulators) (load_contexts bi after).
Proof.
  induction before as [|r before IH]; intros accumulators; cbn [app load_contexts].
  - reflexivity.
  - destruct (load_record bi r) as [[ctx_hash e]|e] eqn:E.
    + apply IH.
    + destruct (skipped e); [apply IH | reflexivity].
Qed.

(** A record whose conversion raises what the [except] clause names
    contributes nothing. *)
Lemma load_contexts_skip before bad after e accumulators :
  load_record bi bad = Raise e ->
  skipped e = true ->
  load_contexts bi (before ++ bad :: after) accumulators
  = load_contexts bi (before ++ after) accumulators.
Proof.
  intros Hbad Hskip. rewrite !load_contexts_app.
  destruct (load_contexts bi before accumulators) as [loaded|]; cbn [Py.bind];
    [| reflexivity].
  cbn [load_contexts]. rewrite Hbad, Hskip. reflexivity.
Qed.

Lemma load_object d path m :
  d !! path = Some (Document (VDict m)) ->
  load bi d path
  = match gt_int (lookup_default m "version" (VInt 1)) CCF_SCHEMA_VERSION with
    | Ok true => Raise CcfLoadError
    | Ok false => load_body bi m
    | Raise e => Raise e
    end.
Proof.
  intros Hfile. unfold load. rewrite Hfile. cbn [json_load get Py.bind].
  fold (lookup_default m "version" (VInt 1)).
  destruct (gt_int _ _) as [[|]|]; reflexivity.
Qed.

Lemma load_body_never_incompatible m : load_body bi m <> Raise CcfLoadError.
Proof.
  unfold load_body.
  repeat match goal with
    | |- Py.bind ?r _ <> _ =>
        let E := fresh "E" in
        destruct r eqn:E; cbn [Py.bind];
        [| try apply get_raises in E; try apply float_raises in E;
           try apply iter_raises in E; try apply load_contexts_raises in E;
           intros [= ->]; intuition discriminate]
    end.
  discriminate.
Qed.

(** CcfLoadError is raised for a newer schema version and for nothing
    else. *)
Lemma load_incompatible_iff d path :
  load bi d path = Raise CcfLoadError
  <-> exists m,
        d !! path = Some (Document (VDict m))
        /\ gt_int (lookup_default m "version" (VInt 1)) CCF_SCHEMA_VERSION = Ok true.
Proof.
  split.
  - destruct (d !! path) as [[state| | |]|] eqn:Hfile;
      try (unfold load; rewrite Hfile; cbn; discriminate).
    destruct state as [| | | | | |m];
      try (unfold load; rewrite Hfile; cbn; discriminate).
    rewrite (load_object d path m Hfile). intros H. exists m. split; [reflexivity |].
    destruct (gt_int _ _) as [[|]|e] eqn:E.
    + reflexivity.
    + destruct (load_body_never_incompatible m H).
    + apply gt_int_raises in E. congruence.
  - intros (m & Hfile & Hgt). rewrite (load_object d path m Hfile), Hgt.
    reflexivity.
Qed.

Lemma load_skips_record d path m before bad after e :
  load_record bi bad = Raise e ->
  skipped e = true ->
  load bi (<[path := Document
               (VDict (<["contexts" := VList (before ++ bad :: after)]> m))]> d) path
  = load bi (<[path := Document
                 (VDict (<["contexts" := VList (before ++ after)]> m))]> d) path.
Proof.
  intros Hbad Hskip.
  rewrite !(load_object _ path _ (lookup_insert_eq _ _ _)).
  unfold lookup_default, load_body, get.
  repeat (rewrite lookup_insert_eq || rewrite lookup_insert_ne by discriminate).
  cbn [iter Py.bind].
  rewrite (load_contexts_skip before bad after e ∅ Hbad Hskip). reflexivity.
Qed.

Lemma load_record_overflow m ctx_hash z :
  m !! "ctx_hash" = Some (VInt ctx_hash) ->
  m !! "coherence" = Some (VInt z) ->
  float_overflows z = true ->
  load_record bi (VDict m) = Raise OverflowError.
Proof.
  intros Hh Hc Hz. unfold load_record, subscript, get.
  rewrite Hh, Hc. cbn [Py.bind Py.int Py.float]. rewrite Hz. reflexivity.
Qed.

(** C6, on the code.  [load] returns [(None, None)] for text that
    [json.load] rejects, the case its [except] clause names, but a state file
    that is corrupted in another way makes it raise: bytes that are not UTF-8
    raise UnicodeDecodeError, and text that parses to a JSON array raises
    AttributeError.  Inside the loop a record whose ["coherence"] is [null] is
    skipped as malformed and the other records load, but a record whose
    ["coherence"] is the integer [10^400] raises OverflowError, which aborts
    the whole load. *)
Theorem load_raises_on_corrupted_files d path :
  (forall raw, load bi (<[path := Garbled raw]> d) path = Ok (None, None))
  /\ load bi (<[path := Undecodable]> d) path = Raise UnicodeDecodeError
  /\ (forall l,
         load bi (<[path := Document (VList l)]> d) path = Raise AttributeError)
  /\ (forall ctx_hash e,
         load bi
           (<[path :=
                Document
                  (VDict
                     {["contexts" :=
                         VList [VDict (<["ctx_hash" := VInt 7]>
                                         {["coherence" := VNone]});
                                record_value (ctx_hash, e)]]})]> d) path
         = Ok (Some {[ctx_hash := e]}, Some (mk_personality 0.5 0.5)))
  /\ (forall ctx_hash e,
         load bi
           (<[path :=
                Document
                  (VDict
                     {["contexts" :=
                         VList [VDict (<["ctx_hash" := VInt 7]>
                                         {["coherence" := VInt (10 ^ 400)]});
                                record_value (ctx_hash, e)]]})]> d) path
         = Raise OverflowError).
Proof.
  split; [| split; [| split; [| split]]].
  - intros raw. unfold load. rewrite lookup_insert_eq. reflexivity.
  - unfold load. rewrite lookup_insert_eq. reflexivity.
  - intros l. unfold load. rewrite lookup_insert_eq. reflexivity.
  - intros ctx_hash e.
    rewrite (load_object _ path _ (lookup_insert_eq _ _ _)).
    unfold lookup_default, load_body, get.
    repeat (rewrite lookup_singleton_eq || rewrite lookup_singleton_ne by discriminate
            || rewrite lookup_empty).
    cbn [gt_int Py.bind Py.float iter load_contexts].
    change (CCF_SCHEMA_VERSION <? 1)%Z with false. cbn iota.
    assert (Hbad : load_record bi (VDict (<["ctx_hash" := VInt 7]>
                                            {["coherence" := VNone]}))
                   = Raise TypeError).
    { unfold load_record, subscript, get. simplify_map_eq. reflexivity. }
    rewrite Hbad. cbn [skipped]. rewrite load_record_value.
    rewrite insert_empty. reflexivity.
  - intros ctx_hash e.
    rewrite (load_object _ path _ (lookup_insert_eq _ _ _)).
    unfold lookup_default, load_body, get.
    repeat (rewrite lookup_singleton_eq || rewrite lookup_singleton_ne by discriminate
            || rewrite lookup_empty).
    cbn [gt_int Py.bind Py.float iter load_contexts].
    change (CCF_SCHEMA_VERSION <? 1)%Z with false. cbn iota.
    assert (Hbad : load_record bi (VDict (<["ctx_hash" := VInt 7]>
                                            {["coherence" := VInt (10 ^ 400)]}))
                   = Raise OverflowError).
    { apply (load_record_overflow _ 7 (10 ^ 400)).
      - apply lookup_insert_eq.
      - rewrite lookup_insert_ne by discriminate. apply lookup_singleton_eq.
      - vm_compute. reflexivity. }
    rewrite Hbad. reflexivity.
Qed.

(** *** A failed [save] *)



End PersistenceFacts.

(** *** The persistence theorems on concrete files *)

Section PersistenceExamples.
Import Py Fs CcfPersistence.




End PersistenceExamples.

(** * Further properties of the package *)

(** ** The accumulator, continued *)

Section AccumulatorMore.
Local Open Scope Q_scope.
Import _Accumulator.

(** X1. For a learned coherence and an instant signal in [0, 1] the effective
    coherence lies in [0, 1] and never exceeds the larger of the two; while
    the learned coherence is below 0.3 it exceeds neither of them. *)
Theorem effective_coherence_bounds acc instant :
  unit_interval (coherence acc) -> unit_interval instant ->
  0 <= effective_coherence acc instant
  /\ effective_coherence acc instant <= 1
  /\ effective_coherence acc instant <= Qmax instant (coherence acc)
  /\ (coherence acc < 0.3 ->
      effective_coherence acc instant <= coherence acc
      /\ effective_coherence acc instant <= instant).
Proof.
  intros [Hc0 Hc1] [Hi0 Hi1]. unfold effective_coherence.
  pose proof (Q.le_max_l instant (coherence acc)) as Hl.
  pose proof (Q.le_max_r instant (coherence acc)) as Hr.
  destruct (Py.lt (coherence acc) 0.3) eqn:E;
    [apply lt_true in E | apply lt_false in E].
  - destruct (min_cases instant (coherence acc)) as [[H ->] | [H ->]];
      repeat split; try lra.
  - repeat split; try lra.
Qed.

Lemma effective_coherence_bounds_witness :
  0 <= effective_coherence (mk 0.5 0.1 4) 0.8
  /\ effective_coherence (mk 0.5 0.1 4) 0.8 <= 1.
Proof.
  destruct (effective_coherence_bounds (mk 0.5 0.1 4) 0.8) as (H0 & H1 & _).
  - unfold unit_interval; cbn; lra.
  - unfold unit_interval; lra.
  - split; assumption.
Defined.

(** X2. The effective coherence is monotone: more learned coherence or a
    stronger instant signal never lowers it, also across the 0.3 gate. *)
Theorem effective_coherence_monotone acc acc' instant instant' :
  coherence acc <= coherence acc' -> instant <= instant' ->
  effective_coherence acc instant <= effective_coherence acc' instant'.
Proof.
  intros Hc Hi. unfold effective_coherence.
  destruct (Py.lt (coherence acc) 0.3) eqn:E;
    [apply lt_true in E | apply lt_false in E];
    destruct (Py.lt (coherence acc') 0.3) eqn:E';
    [apply lt_true in E' | apply lt_false in E' | apply lt_true in E'
     | apply lt_false in E'];
    try destruct (min_cases instant (coherence acc)) as [[H ->] | [H ->]];
    try destruct (min_cases instant' (coherence acc')) as [[H' ->] | [H' ->]];
    lra.
Qed.

Lemma effective_coherence_monotone_witness :
  effective_coherence (mk 0.29 0 1) 0.9 <= effective_coherence (mk 0.3 0 1) 0.9.
Proof.
  apply effective_coherence_monotone; cbn; lra.
Defined.

(** X3. Every recorded interaction, positive or negative, adds exactly one
    to [interaction_count]. *)
Theorem interaction_count_counts_calls calls : forall acc,
  interaction_count (record_all acc calls)
  = (interaction_count acc + Z.of_nat (length calls))%Z.
Proof.
  induction calls as [|call calls IH]; intros acc.
  - cbn. lia.
  - cbn [record_all fold_left length]. fold (record_all (record_interaction acc call) calls).
    rewrite IH. destruct call; cbn; lia.
Qed.

(** One call raises the coherence by at most 0.12. *)
Lemma record_interaction_gain acc call :
  well_formed acc -> valid_interaction call ->
  coherence (record_interaction acc call) <= coherence acc + 0.12.
Proof.
  intros (H0 & H1 & H2) Hcall. destruct call as [curiosity alone|recovery];
    cbn in *; destruct Hcall as [C0 C1].
  - destruct (min_cases 1.0 (coherence acc + curiosity * 0.12)) as [[H ->] | [H ->]];
      lra.
  - destruct (max_cases (earned_floor acc)
                (coherence acc - 0.15 * (1.0 - recovery))) as [[H ->] | [H ->]];
      lra.
Qed.

Lemma record_all_gain calls : forall acc,
  well_formed acc -> Forall valid_interaction calls ->
  coherence (record_all acc calls)
  <= coherence acc + 0.12 * inject_Z (Z.of_nat (length calls)).
Proof.
  induction calls as [|call calls IH]; intros acc Hacc Hcalls.
  - cbn [record_all fold_left length]. change (inject_Z (Z.of_nat 0)) with 0. lra.
  - inversion Hcalls as [|? ? Hcall Hrest]; subst.
    cbn [record_all fold_left]. fold (record_all (record_interaction acc call) calls).
    destruct (record_interaction_step acc call Hacc Hcall) as [Hacc' _].
    pose proof (IH _ Hacc' Hrest) as Hbound.
    pose proof (record_interaction_gain acc call Hacc Hcall) as Hgain.
    cbn [length]. rewrite Nat2Z.inj_succ. unfold Z.succ. rewrite inject_Z_plus.
    change (inject_Z 1) with 1. lra.
Qed.

(** X4. Which way interactions move an accumulator.  A run of positive
    interactions never lowers the coherence and, once the coherence is 1,
    leaves it at 1; a run of negative interactions never raises the coherence
    and leaves the earned floor exactly as it is. *)
Theorem interactions_move_one_way calls : forall acc,
  well_formed acc ->
  Forall valid_interaction calls ->
  (Forall (fun call => exists c alone, call = PositiveInteraction c alone) calls ->
   coherence acc <= coherence (record_all acc calls)
   /\ (coherence acc == 1 -> coherence (record_all acc calls) == 1))
  /\ (Forall (fun call => exists r, call = NegativeInteraction r) calls ->
      coherence (record_all acc calls) <= coherence acc
      /\ earned_floor (record_all acc calls) = earned_floor acc).
Proof.
  induction calls as [|call calls IH]; intros acc Hacc Hcalls.
  - cbn. split; intros _; split; try reflexivity; try lra; auto.
  - apply Forall_cons in Hcalls as [Hcall Hcalls].
    pose proof (record_interaction_step acc call Hacc Hcall) as [Hacc' _].
    destruct (IH _ Hacc' Hcalls) as [IHpos IHneg].
    change (record_all acc (call :: calls))
      with (record_all (record_interaction acc call) calls).
    destruct Hacc as (H0 & H1 & H2).
    split; intros Hkind; apply Forall_cons in Hkind as [Hhead Hkind].
    + destruct Hhead as (c & alone & ->). destruct Hcall as [C0 C1].
      destruct (IHpos Hkind) as [Hle Hone].
      cbn [record_interaction] in *.
      assert (Hstep : coherence acc
                      <= coherence (positive_interaction acc c alone)
                      /\ (coherence acc == 1 ->
                          coherence (positive_interaction acc c alone) == 1)).
      { unfold positive_interaction. cbn [coherence].
        destruct (min_cases 1.0 (coherence acc + c * 0.12))
          as [[Hm ->] | [Hm ->]]; split; intros; lra. }
      destruct Hstep as [Hs1 Hs2].
      split; [lra | intros Hacc1; apply Hone, Hs2, Hacc1].
    + destruct Hhead as (r & ->). destruct Hcall as [R0 R1].
      destruct (IHneg Hkind) as [Hle Hfloor].
      cbn [record_interaction] in *.
      split.
      * assert (Hs : coherence (negative_interaction acc r) <= coherence acc).
        { unfold negative_interaction. cbn [coherence].
          destruct (max_cases (earned_floor acc) (coherence acc - 0.15 * (1.0 - r)))
            as [[Hm ->] | [Hm ->]]; lra. }
        lra.
      * rewrite Hfloor. reflexivity.
Qed.

Lemma interactions_move_one_way_witness :
  coherence (mk 0.5 0.2 3)
  <= coherence (record_all (mk 0.5 0.2 3)
                  [PositiveInteraction 0.5 false; PositiveInteraction 1 true]).
Proof.
  apply (interactions_move_one_way
           [PositiveInteraction 0.5 false; PositiveInteraction 1 true]
           (mk 0.5 0.2 3)).
  - unfold well_formed; cbn; lra.
  - repeat constructor; cbn; lra.
  - repeat constructor; eauto.
Defined.

End AccumulatorMore.

(** ** The phase classifier, continued *)

Section PhaseMore.
Local Open Scope Q_scope.
Import SocialPhase social_phase.

Ltac thresholds :=
  unfold classify_phase, _UPPER_SHY_TO_BUILDING, _LOWER_BUILDING_TO_SHY,
    _UPPER_BUILDING_TO_BELOVED, _LOWER_BELOVED_TO_BUILDING,
    _GUARDIAN_TENSION, _STARTLE_TENSION.

(** X5. The two transient phases are returned for no other reason than their
    override: ProtectiveGuardian exactly when the effective coherence is at
    least 0.55 and the instant signal below 0.30, StartledRetreat exactly
    when the effective coherence is below 0.35 and the instant signal below
    0.20, whatever the previous phase. *)
Theorem transient_phases_iff effective_coh instant prev :
  (classify_phase effective_coh instant prev = ProtectiveGuardian
   <-> 0.55 <= effective_coh /\ instant < 0.30)
  /\ (classify_phase effective_coh instant prev = StartledRetreat
      <-> effective_coh < 0.35 /\ instant < 0.20).
Proof.
  destruct prev; thresholds; py_compare; cbn;
    (split;
     (split; [intros H; try discriminate H; split; lra
             | intros [H1 H2]; try reflexivity; exfalso; lra])).
Qed.

(** X6. With the inputs held constant the classifier settles within two
    ticks: a third tick returns what the second returned. *)
Theorem classify_settles_in_two_ticks effective_coh instant prev :
  let tick := classify_phase effective_coh instant in
  tick (tick (tick prev)) = tick (tick prev).
Proof.
  cbv zeta. destruct prev; thresholds; py_compare; cbn;
    first [reflexivity | exfalso; lra].
Qed.

(** X7. Where each settled phase holds: ShyObserver is kept exactly for an
    effective coherence below 0.35 without startle, BuildingTrust exactly
    inside [0.28, 0.55) without startle, QuietlyBeloved exactly from 0.45 up
    without the guardian override. *)
Theorem settled_phase_kept_iff effective_coh instant :
  (classify_phase effective_coh instant ShyObserver = ShyObserver
   <-> effective_coh < 0.35 /\ 0.20 <= instant)
  /\ (classify_phase effective_coh instant BuildingTrust = BuildingTrust
      <-> 0.28 <= effective_coh /\ effective_coh < 0.55
          /\ (0.35 <= effective_coh \/ 0.20 <= instant))
  /\ (classify_phase effective_coh instant QuietlyBeloved = QuietlyBeloved
      <-> 0.45 <= effective_coh
          /\ (effective_coh < 0.55 \/ 0.30 <= instant)).
Proof.
  thresholds; py_compare; cbn;
    (split; [| split];
     (split;
      [intros H; try discriminate H; repeat split; try lra;
       first [left; lra | right; lra]
      | intros H; try reflexivity; exfalso; lra])).
Qed.

(** Without acute stress the classifier is monotone in the effective
    coherence and in the previous phase, and returns a settled phase. *)
Lemma classify_calm_monotone e e' i i' p p' :
  0.30 <= i -> 0.30 <= i' -> e <= e' ->
  settled p -> settled p' -> (trust_rank p <= trust_rank p')%nat ->
  settled (classify_phase e' i' p')
  /\ (trust_rank (classify_phase e i p) <= trust_rank (classify_phase e' i' p'))%nat.
Proof.
  intros Hi Hi' He Hp Hp' Hrank.
  assert (G1 : Py.lt i 0.30 = false) by (apply lt_false; lra).
  assert (G2 : Py.lt i 0.20 = false) by (apply lt_false; lra).
  assert (G1' : Py.lt i' 0.30 = false) by (apply lt_false; lra).
  assert (G2' : Py.lt i' 0.20 = false) by (apply lt_false; lra).
  thresholds. rewrite G1, G2, G1', G2', !andb_false_r.
  destruct p, p'; cbn in Hp, Hp', Hrank; try contradiction; try lia;
    py_compare; cbn; (split; [exact I | first [lia | exfalso; lra]]).
Qed.

Lemma rising_never_regresses ticks : forall floor i0 before prev,
  0.30 <= i0 -> settled before -> settled prev ->
  (trust_rank before <= trust_rank prev)%nat ->
  prev = classify_phase floor i0 before ->
  rising floor ticks ->
  never_regresses prev (run_ticks prev ticks)
  /\ Forall settled (run_ticks prev ticks).
Proof.
  induction ticks as [|[e i] ticks IH];
    intros floor i0 before prev Hi0 Hbefore Hprev Hrank Eprev Hrising.
  - cbn. split; constructor.
  - cbn in Hrising. destruct Hrising as (Hfloor & Hi & Hrest).
    cbn [run_ticks never_regresses].
    destruct (classify_calm_monotone floor e i0 i before prev
                Hi0 Hi Hfloor Hbefore Hprev Hrank) as [Hsettled Hstep].
    rewrite <- Eprev in Hstep.
    destruct (IH e i prev (classify_phase e i prev) Hi Hprev Hsettled Hstep
                eq_refl Hrest) as [Hnever Hall].
    split; [split; assumption | constructor; assumption].
Qed.

(** X8. From ShyObserver, over ticks without acute stress (instant at least
    0.30) whose effective coherence never falls, the phase never regresses
    and is never a transient one: it can only stay or advance
    ShyObserver, BuildingTrust, QuietlyBeloved. *)
Theorem rising_trust_never_regresses floor ticks :
  rising floor ticks ->
  never_regresses ShyObserver (run_ticks ShyObserver ticks)
  /\ Forall settled (run_ticks ShyObserver ticks).
Proof.
  destruct ticks as [|[e i] ticks]; intros Hrising.
  - cbn. split; constructor.
  - cbn in Hrising. destruct Hrising as (_ & Hi & Hrest).
    cbn [run_ticks never_regresses].
    destruct (classify_calm_monotone e e i i ShyObserver ShyObserver
                Hi Hi ltac:(lra) I I ltac:(lia)) as [Hsettled _].
    destruct (rising_never_regresses ticks e i ShyObserver
                (classify_phase e i ShyObserver) Hi I Hsettled ltac:(cbn; lia)
                eq_refl Hrest) as [Hnever Hall].
    split; [split; [cbn; lia | assumption] | constructor; assumption].
Qed.

Lemma rising_trust_never_regresses_witness :
  never_regresses ShyObserver
    (run_ticks ShyObserver [(0.06, 0.8); (0.29, 0.8); (0.45, 0.8); (0.6, 0.8)]).
Proof.
  apply (rising_trust_never_regresses 0
           [(0.06, 0.8); (0.29, 0.8); (0.45, 0.8); (0.6, 0.8)]).
  cbn. repeat split; lra.
Defined.

End PhaseMore.

(** ** Accumulator and classifier together *)

Section TrustMore.
Local Open Scope Q_scope.
Import SocialPhase social_phase.

(** X9. Trust has to be earned: while the learned coherence of a context is
    below 0.3, no instant signal makes the classifier return QuietlyBeloved
    or ProtectiveGuardian, and from ShyObserver it returns ShyObserver or
    StartledRetreat; a fresh accumulator is in that state after any two
    interactions with arguments in [0, 1], so leaving ShyObserver takes at
    least three. *)
Theorem trust_must_be_earned :
  (forall acc instant prev,
      _Accumulator.coherence acc < 0.3 ->
      let phase :=
        classify_phase (_Accumulator.effective_coherence acc instant) instant prev in
      phase <> QuietlyBeloved
      /\ phase <> ProtectiveGuardian
      /\ (prev = ShyObserver -> phase = ShyObserver \/ phase = StartledRetreat))
  /\ (forall calls,
         Forall valid_interaction calls -> (length calls <= 2)%nat ->
         _Accumulator.coherence (record_all _Accumulator.new calls) < 0.3).
Proof.
  split.
  - intros acc instant prev Hc phase. subst phase.
    assert (He : _Accumulator.effective_coherence acc instant < 0.3).
    { unfold _Accumulator.effective_coherence.
      destruct (Py.lt (_Accumulator.coherence acc) 0.3) eqn:E;
        [| apply lt_false in E; lra].
      destruct (min_cases instant (_Accumulator.coherence acc))
        as [[H ->] | [H ->]]; lra. }
    set (e := _Accumulator.effective_coherence acc instant) in *.
    clearbody e.
    unfold classify_phase, _UPPER_SHY_TO_BUILDING, _LOWER_BUILDING_TO_SHY,
      _UPPER_BUILDING_TO_BELOVED, _LOWER_BELOVED_TO_BUILDING,
      _GUARDIAN_TENSION, _STARTLE_TENSION.
    destruct prev; py_compare; cbn;
      try (exfalso; lra);
      (split; [discriminate | split; [discriminate |]]);
      intros Hprev; try discriminate Hprev; auto.
  - intros calls Hcalls Hlen.
    assert (Hnew : well_formed _Accumulator.new)
      by (unfold well_formed; cbn; lra).
    pose proof (record_all_gain calls _Accumulator.new Hnew Hcalls) as Hgain.
    cbn [_Accumulator.new _Accumulator.coherence] in Hgain.
    assert (Hn : inject_Z (Z.of_nat (length calls)) <= 2).
    { change 2 with (inject_Z 2). rewrite <- Zle_Qle. lia. }
    lra.
Qed.

Lemma trust_must_be_earned_witness :
  _Accumulator.coherence
    (record_all _Accumulator.new
       [PositiveInteraction 1 false; PositiveInteraction 1 false]) < 0.3.
Proof.
  apply (proj2 trust_must_be_earned).
  - repeat constructor; cbn; lra.
  - cbn. lia.
Defined.

End TrustMore.

(** ** The field, continued *)

Section FieldMore.
Local Open Scope Q_scope.
Import CoherenceFieldPy.

Lemma get_or_create_lookup context_hash self :
  _get_or_create context_hash self
  = (default _Accumulator.new (_accumulators self !! context_hash),
     mk (curiosity_drive self) (recovery_rate self)
        (<[context_hash :=
             default _Accumulator.new (_accumulators self !! context_hash)]>
           (_accumulators self))).
Proof.
  unfold _get_or_create, bind, read, store, ret.
  destruct (_accumulators self !! context_hash) eqn:E; cbn.
  - rewrite insert_id by exact E. destruct self; reflexivity.
  - reflexivity.
Qed.

(** What one event does to the map of accumulators. *)
Lemma field_record_accumulators self ev :
  field_record self ev
  = mk (curiosity_drive self) (recovery_rate self)
       (<[event_hash ev :=
            match ev with
            | FieldPositive h alone =>
                _Accumulator.positive_interaction
                  (default _Accumulator.new (_accumulators self !! h))
                  (curiosity_drive self) alone
            | FieldNegative h =>
                _Accumulator.negative_interaction
                  (default _Accumulator.new (_accumulators self !! h))
                  (recovery_rate self)
            end]> (_accumulators self)).
Proof.
  destruct ev as [h alone|h]; cbn [field_record event_hash];
    unfold positive_interaction, negative_interaction, bind, read, store;
    rewrite get_or_create_lookup; cbn; rewrite insert_insert_eq; reflexivity.
Qed.

(** X10. Contexts are independent: an interaction recorded for one context
    hash leaves the accumulator of every other hash, and the personality,
    as they were; the accumulator of the hash itself is the old one (a zero
    accumulator if there was none) after the interaction. *)
Theorem interaction_touches_one_context self ev :
  curiosity_drive (field_record self ev) = curiosity_drive self
  /\ recovery_rate (field_record self ev) = recovery_rate self
  /\ (forall other,
         other <> event_hash ev ->
         _accumulators (field_record self ev) !! other = _accumulators self !! other)
  /\ _accumulators (field_record self ev) !! event_hash ev
     = Some (record_interaction
               (default _Accumulator.new (_accumulators self !! event_hash ev))
               match ev with
               | FieldPositive _ alone => PositiveInteraction (curiosity_drive self) alone
               | FieldNegative _ => NegativeInteraction (recovery_rate self)
               end).
Proof.
  rewrite field_record_accumulators. cbn [curiosity_drive recovery_rate _accumulators].
  split; [reflexivity | split; [reflexivity | split]].
  - intros other Hother. apply lookup_insert_ne. congruence.
  - rewrite lookup_insert_eq. destruct ev; reflexivity.
Qed.

Lemma interaction_touches_one_context_witness :
  let self := mk 0.5 0.5 {[1%Z := _Accumulator.mk 0.4 0.1 5]} in
  _accumulators (field_record self (FieldPositive 2 false)) !! 1%Z
  = Some (_Accumulator.mk 0.4 0.1 5).
Proof.
  intros self.
  destruct (interaction_touches_one_context self (FieldPositive 2 false))
    as (_ & _ & H & _).
  rewrite (H 1%Z) by discriminate. reflexivity.
Defined.

Lemma accumulator_effective_coherence_range acc instant :
  unit_interval (_Accumulator.coherence acc) -> unit_interval instant ->
  0 <= _Accumulator.effective_coherence acc instant
  /\ _Accumulator.effective_coherence acc instant <= 1.
Proof.
  intros [Hc0 Hc1] [Hi0 Hi1]. unfold _Accumulator.effective_coherence.
  destruct (Py.lt (_Accumulator.coherence acc) 0.3) eqn:E;
    [apply lt_true in E | apply lt_false in E].
  - destruct (min_cases instant (_Accumulator.coherence acc))
      as [[H ->] | [H ->]]; lra.
  - lra.
Qed.

Lemma new_well_formed curiosity recovery self :
  new curiosity recovery = Py.Ok self ->
  field_well_formed self /\ _accumulators self = ∅.
Proof.
  unfold new.
  destruct (Qle_bool 0.0 curiosity) eqn:E1; [| discriminate].
  destruct (Qle_bool curiosity 1.0) eqn:E2; [| discriminate].
  destruct (Qle_bool 0.0 recovery) eqn:E3; [| discriminate].
  destruct (Qle_bool recovery 1.0) eqn:E4; [| discriminate].
  cbn. intros [= <-].
  apply Qle_bool_iff in E1, E2, E3, E4.
  split; [| reflexivity].
  unfold field_well_formed, unit_interval; cbn.
  split; [lra | split; [lra | apply map_Forall_empty]].
Qed.

Lemma field_record_well_formed self ev :
  field_well_formed self -> field_well_formed (field_record self ev).
Proof.
  intros (Hc & Hr & Haccs). rewrite field_record_accumulators.
  unfold field_well_formed. cbn [curiosity_drive recovery_rate _accumulators].
  split; [exact Hc | split; [exact Hr |]].
  apply map_Forall_insert_2; [| exact Haccs].
  assert (Hold : well_formed
                   (default _Accumulator.new (_accumulators self !! event_hash ev))).
  { destruct (_accumulators self !! event_hash ev) as [acc|] eqn:E; cbn.
    - exact (Haccs _ _ E).
    - unfold well_formed; cbn; lra. }
  destruct ev as [h alone|h]; cbn [event_hash] in *.
  - apply positive_interaction_step; assumption.
  - apply negative_interaction_step; assumption.
Qed.

Lemma field_record_all_well_formed events : forall self,
  field_well_formed self -> field_well_formed (field_record_all self events).
Proof.
  induction events as [|ev events IH]; intros self Hself; cbn.
  - exact Hself.
  - apply IH. apply field_record_well_formed. exact Hself.
Qed.

(** X11. A field built by the constructor (which accepts the personality only
    inside [0, 1]) keeps every accumulator at
    [0 <= earned_floor <= coherence <= 1] through any sequence of positive and
    negative interactions on any context hashes, and so reports an effective
    coherence in [0, 1] for every context and every instant in [0, 1]. *)
Theorem field_stays_well_formed curiosity recovery self events context_hash instant :
  new curiosity recovery = Py.Ok self ->
  unit_interval instant ->
  let self' := field_record_all self events in
  map_Forall (fun _ acc => well_formed acc) (_accumulators self')
  /\ 0 <= fst (effective_coherence context_hash instant self')
  /\ fst (effective_coherence context_hash instant self') <= 1.
Proof.
  intros Hnew Hinstant self'.
  destruct (new_well_formed _ _ _ Hnew) as [Hself _].
  pose proof (field_record_all_well_formed events self Hself) as (_ & _ & Haccs).
  fold self' in Haccs. split; [exact Haccs |].
  unfold effective_coherence, bind, read, ret.
  destruct (_accumulators self' !! context_hash) as [acc|] eqn:E; cbn [fst].
  - destruct (Haccs _ _ E) as (H0 & H1 & H2).
    apply accumulator_effective_coherence_range;
      [unfold unit_interval; lra | exact Hinstant].
  - change (Py.lt 0.0 0.3) with true. cbn [fst].
    destruct Hinstant as [Hi0 Hi1].
    destruct (min_cases instant 0.0) as [[H ->] | [H ->]]; lra.
Qed.

Lemma field_stays_well_formed_witness :
  let self := mk 0.5 0.5 ∅ in
  let self' := field_record_all self
                 [FieldPositive 7 false; FieldNegative 7; FieldPositive 9 true] in
  0 <= fst (effective_coherence 7 0.8 self')
  /\ fst (effective_coherence 7 0.8 self') <= 1.
Proof.
  intros self self'.
  destruct (field_stays_well_formed 0.5 0.5 self
              [FieldPositive 7 false; FieldNegative 7; FieldPositive 9 true]
              7 0.8 eq_refl) as (_ & H0 & H1).
  - unfold unit_interval; lra.
  - split; assumption.
Defined.

End FieldMore.

(** ** The context key, continued *)

Section KeyMore.
Local Open Scope Z_scope.
Import TextContextKey.

Lemma elem_of_Zrange z n : z ∈ Zrange n <-> 0 <= z < Z.of_nat n.
Proof.
  unfold Zrange. change (map Z.of_nat (seq 0 n)) with (Z.of_nat <$> seq 0 n).
  rewrite list_elem_of_fmap. split.
  - intros (i & -> & Hi). apply elem_of_seq in Hi. lia.
  - intros Hz. exists (Z.to_nat z). split; [lia |].
    apply elem_of_seq. lia.
Qed.

Lemma valid_keys_complete td cd er tod sp k :
  new td cd er tod sp = Py.Ok k -> k ∈ valid_keys.
Proof.
  intros H. apply new_ok in H as (-> & ? & ? & ? & ? & ?).
  unfold valid_keys.
  apply list_elem_of_bind. exists td. split; [| apply elem_of_Zrange; lia].
  apply list_elem_of_bind. exists cd. split; [| apply elem_of_Zrange; lia].
  apply list_elem_of_bind. exists er. split; [| apply elem_of_Zrange; lia].
  apply list_elem_of_bind. exists tod. split; [| apply elem_of_Zrange; lia].
  apply list_elem_of_bind. exists sp. split; [| apply elem_of_Zrange; lia].
  apply list_elem_of_singleton. reflexivity.
Qed.

Lemma key_eqb_eq a b : key_eqb a b = true -> a = b.
Proof.
  destruct a, b. unfold key_eqb. cbn.
  rewrite !andb_true_iff, !Z.eqb_eq. intros ((((-> & ->) & ->) & ->) & ->).
  reflexivity.
Qed.

(** A table in which every key of a list is found under its own hash
    separates the keys of the list. *)
Lemma found_under_own_hash_injective (table : gmap Z t) keys k k' :
  forallb (found_under_own_hash table) keys = true ->
  k ∈ keys -> k' ∈ keys ->
  context_hash k = context_hash k' -> k = k'.
Proof.
  intros Hall Hk Hk' Hhash. rewrite forallb_forall in Hall.
  apply list_elem_of_In in Hk, Hk'.
  pose proof (Hall k Hk) as H. pose proof (Hall k' Hk') as H'.
  unfold found_under_own_hash in H, H'. rewrite Hhash in H.
  destruct (table !! context_hash k') as [found|]; [| discriminate H].
  apply key_eqb_eq in H, H'. congruence.
Qed.

(** Every valid fingerprint is found in the table under its own hash. *)
Lemma hash_table_exact : forallb (found_under_own_hash hash_table) valid_keys = true.
Proof. vm_cast_no_check (eq_refl true). Qed.

(** X12. [context_hash] has no collision on the fingerprints the constructor
    accepts: two valid fingerprints with the same hash have the same five
    fields, so distinct contexts never share an accumulator. *)
Theorem context_hash_injective td cd er tod sp k td' cd' er' tod' sp' k' :
  new td cd er tod sp = Py.Ok k ->
  new td' cd' er' tod' sp' = Py.Ok k' ->
  context_hash k = context_hash k' ->
  k = k'.
Proof.
  intros Hk Hk' Hhash.
  apply valid_keys_complete in Hk, Hk'.
  exact (found_under_own_hash_injective hash_table valid_keys k k'
           hash_table_exact Hk Hk' Hhash).
Qed.

Lemma context_hash_injective_witness :
  mk 5 1 0 1 1 = mk 5 1 0 1 1
  /\ context_hash (mk 5 1 0 1 1) <> context_hash (mk 5 1 0 1 2).
Proof.
  split.
  - apply (context_hash_injective 5 1 0 1 1 (mk 5 1 0 1 1) 5 1 0 1 1 (mk 5 1 0 1 1));
      reflexivity.
  - intros H.
    pose proof (context_hash_injective 5 1 0 1 1 (mk 5 1 0 1 1)
                  5 1 0 1 2 (mk 5 1 0 1 2) eq_refl eq_refl H) as E.
    discriminate E.
Defined.

Lemma new_in_range td cd er tod sp :
  0 <= td <= 63 /\ 0 <= cd <= 2 /\ 0 <= er <= 3 /\ 0 <= tod <= 3 /\ 0 <= sp <= 2 ->
  new td cd er tod sp = Py.Ok (mk td cd er tod sp).
Proof.
  unfold new, in_range.
  repeat match goal with
    | |- context [(?a <=? ?b)] => destruct (Z.leb_spec a b)
    end; cbn; intros Hrange; try reflexivity; exfalso; lia.
Qed.

(** X13. The constructor accepts a fingerprint exactly when the five fields
    lie in 0-63, 0-2, 0-3, 0-3 and 0-2, and raises ValueError otherwise. *)
Theorem new_accepts_iff td cd er tod sp :
  (0 <= td <= 63 /\ 0 <= cd <= 2 /\ 0 <= er <= 3 /\ 0 <= tod <= 3 /\ 0 <= sp <= 2 ->
   new td cd er tod sp = Py.Ok (mk td cd er tod sp))
  /\ (~ (0 <= td <= 63 /\ 0 <= cd <= 2 /\ 0 <= er <= 3 /\ 0 <= tod <= 3
         /\ 0 <= sp <= 2) ->
      new td cd er tod sp = Py.Raise Py.ValueError).
Proof.
  unfold new, in_range.
  repeat match goal with
    | |- context [(?a <=? ?b)] => destruct (Z.leb_spec a b)
    end; cbn; split; intros Hrange; try reflexivity; exfalso; lia.
Qed.

Lemma new_accepts_iff_witness :
  new 63 2 3 3 2 = Py.Ok (mk 63 2 3 3 2)
  /\ new 64 0 0 0 0 = Py.Raise Py.ValueError.
Proof.
  split.
  - apply (proj1 (new_accepts_iff 63 2 3 3 2)). lia.
  - apply (proj2 (new_accepts_iff 64 0 0 0 0)). lia.
Defined.

(** *** Keyword clusters *)

Lemma keyword_cluster_best_match text :
  _keyword_cluster text
  = fst (best_match (cluster_score text) _KEYWORD_CLUSTERS (32, 0)).
Proof. reflexivity. Qed.

(** The loop keeps the first entry among those with the highest score, if
    that score beats the initial one. *)
Lemma best_match_first_best score table : forall c0 s0,
  (best_match score table (c0, s0) = (c0, s0)
   /\ Forall (fun entry => score (fst entry) <= s0) table)
  \/ (exists before keywords cluster after,
         table = before ++ (keywords, cluster) :: after
         /\ best_match score table (c0, s0) = (cluster, score keywords)
         /\ s0 < score keywords
         /\ Forall (fun entry => score (fst entry) < score keywords) before
         /\ Forall (fun entry => score (fst entry) <= score keywords) after).
Proof.
  induction table as [|[keywords cluster] table IH]; intros c0 s0.
  - left. split; [reflexivity | constructor].
  - unfold best_match. cbn [fold_left]. fold (best_match score table).
    cbv beta zeta.
    destruct (Z.ltb_spec s0 (score keywords)) as [Hlt | Hge].
    + right.
      destruct (IH cluster (score keywords))
        as [[E Hall] | (before & kw & c & after & -> & E & Hlt' & Hb & Ha)].
      * exists [], keywords, cluster, table.
        split; [reflexivity |]. split; [exact E |]. split; [exact Hlt |].
        split; [constructor | exact Hall].
      * exists ((keywords, cluster) :: before), kw, c, after.
        split; [reflexivity |]. split; [exact E |]. split; [lia |].
        split; [constructor; [cbn; lia | exact Hb] | exact Ha].
    + destruct (IH c0 s0)
        as [[E Hall] | (before & kw & c & after & -> & E & Hlt' & Hb & Ha)].
      * left. split; [exact E |]. constructor; [cbn; lia | exact Hall].
      * right. exists ((keywords, cluster) :: before), kw, c, after.
        split; [reflexivity |]. split; [exact E |]. split; [exact Hlt' |].
        split; [constructor; [cbn; lia | exact Hb] | exact Ha].
Qed.

Lemma cluster_score_nonneg text keywords : 0 <= cluster_score text keywords.
Proof. unfold cluster_score, PyStr.common. lia. Qed.

(** X14. For a text of ASCII characters, [_keyword_cluster] returns 32
    (miscellaneous) exactly when no cluster has a keyword among the tokens of
    the text; otherwise it returns the cluster of the first entry of the table,
    in declaration order, whose overlap with the tokens is the largest. *)
Theorem keyword_cluster_first_best text :
  PyStr.is_ascii text = true ->
  (_keyword_cluster text = 32
   /\ Forall (fun entry => cluster_score text (fst entry) = 0) _KEYWORD_CLUSTERS)
  \/ (exists before keywords after,
         _KEYWORD_CLUSTERS = before ++ (keywords, _keyword_cluster text) :: after
         /\ 0 < cluster_score text keywords
         /\ Forall (fun entry =>
                      cluster_score text (fst entry) < cluster_score text keywords)
                   before
         /\ Forall (fun entry =>
                      cluster_score text (fst entry) <= cluster_score text keywords)
                   after).
Proof.
  intros _.
  rewrite keyword_cluster_best_match.
  destruct (best_match_first_best (cluster_score text) _KEYWORD_CLUSTERS 32 0)
    as [[E Hall] | (before & kw & c & after & Htable & E & Hlt & Hb & Ha)].
  - left. rewrite E. split; [reflexivity |].
    eapply Forall_impl; [exact Hall |]. intros entry Hle. cbn in Hle.
    pose proof (cluster_score_nonneg text (fst entry)). lia.
  - right. rewrite E. cbn [fst]. exists before, kw, after. auto.
Qed.

Lemma keyword_cluster_first_best_witness :
  (_keyword_cluster "hello there" = 32
   /\ Forall (fun entry => cluster_score "hello there" (fst entry) = 0)
             _KEYWORD_CLUSTERS)
  \/ (exists before keywords after,
         _KEYWORD_CLUSTERS
         = before ++ (keywords, _keyword_cluster "hello there") :: after
         /\ 0 < cluster_score "hello there" keywords
         /\ Forall (fun entry =>
                      cluster_score "hello there" (fst entry)
                      < cluster_score "hello there" keywords)
                   before
         /\ Forall (fun entry =>
                      cluster_score "hello there" (fst entry)
                      <= cluster_score "hello there" keywords)
                   after).
Proof.
  apply (keyword_cluster_first_best "hello there"). reflexivity.
Defined.

Lemma cluster_ids_in_range :
  forallb (fun entry => (0 <=? snd entry) && (snd entry <=? 31)) _KEYWORD_CLUSTERS
  = true.
Proof. vm_compute. reflexivity. Qed.

Lemma keyword_cluster_range text : 0 <= _keyword_cluster text <= 32.
Proof.
  rewrite keyword_cluster_best_match.
  destruct (best_match_first_best (cluster_score text) _KEYWORD_CLUSTERS 32 0)
    as [[-> _] | (before & kw & c & after & Htable & -> & _)]; cbn [fst]; [lia |].
  pose proof cluster_ids_in_range as H. rewrite forallb_forall in H.
  specialize (H (kw, c)).
  rewrite Htable in H. cbn [snd] in H.
  assert (Hin : In (kw, c) (before ++ (kw, c) :: after))
    by (apply in_or_app; right; left; reflexivity).
  apply H in Hin. lia.
Qed.

Lemma register_from_text_range text : 0 <= EmotionalRegister.from_text text <= 3.
Proof.
  unfold EmotionalRegister.from_text, EmotionalRegister.INTENSE,
    EmotionalRegister.VULNERABLE, EmotionalRegister.WARM, EmotionalRegister.NEUTRAL.
  repeat match goal with
    | |- context [if ?b then _ else _] => destruct b
    end; lia.
Qed.

Lemma time_of_day_now_range tm_hour : 0 <= TimeOfDay.now tm_hour <= 3.
Proof.
  unfold TimeOfDay.now, TimeOfDay.MORNING, TimeOfDay.AFTERNOON,
    TimeOfDay.EVENING, TimeOfDay.NIGHT.
  repeat match goal with
    | |- context [if ?b then _ else _] => destruct b
    end; lia.
Qed.

Lemma session_phase_range turn_count :
  0 <= SessionPhase.from_turn_count turn_count <= 2.
Proof.
  unfold SessionPhase.from_turn_count, SessionPhase.OPENING,
    SessionPhase.MIDDLE, SessionPhase.CLOSING.
  repeat match goal with
    | |- context [if ?b then _ else _] => destruct b
    end; lia.
Qed.

(** The key [from_text] builds when [depth] and [register] are left out and
    the topic comes from the keyword match. *)
Lemma from_text_defaults_key bi st tm_hour text turn_count use_embeddings :
  (use_embeddings = true -> forall e, st <> ModelFails e) ->
  from_text bi st tm_hour text None None turn_count use_embeddings
  = Py.Ok (mk (_keyword_cluster text) 1 (EmotionalRegister.from_text text)
              (TimeOfDay.now tm_hour) (SessionPhase.from_turn_count turn_count)).
Proof.
  intros Hst.
  pose proof (keyword_cluster_range text) as Htopic.
  pose proof (register_from_text_range text) as Hreg.
  pose proof (time_of_day_now_range tm_hour) as Htime.
  pose proof (session_phase_range turn_count) as Hphase.
  unfold from_text. cbn [default depth_default register_default].
  replace (if use_embeddings then _sentence_transformer_cluster st text
           else Py.Ok (_keyword_cluster text))
    with (Py.Ok (_keyword_cluster text)).
  2:{ destruct use_embeddings; [| reflexivity].
      destruct st as [|e|]; try reflexivity.
      destruct (Hst eq_refl e eq_refl). }
  cbn [Py.bind].
  change (ConversationDepth.from_label "moderate") with (@Py.Ok Z 1).
  cbn [Py.bind].
  apply new_in_range. lia.
Qed.

(** X15. A call of [from_text] on a text of ASCII characters that leaves
    [depth] and [register] out fails in one case only, whatever the turn
    count and the hour of the clock: embeddings are asked for and the
    construction of the sentence-transformer model raises; that exception is
    passed on.  In every other case, with or without embeddings, the call
    returns a key whose topic is the keyword cluster, in 0-32, whose depth is
    1, and whose register, time of day and session phase are what their
    classifiers give. *)
Theorem from_text_defaults_outcomes bi st tm_hour text turn_count :
  PyStr.is_ascii text = true ->
  (forall use_embeddings,
      (use_embeddings = true -> forall e, st <> ModelFails e) ->
      exists k,
        from_text bi st tm_hour text None None turn_count use_embeddings = Py.Ok k
        /\ topic_domain k = _keyword_cluster text
        /\ 0 <= topic_domain k <= 32
        /\ conversation_depth k = 1
        /\ emotional_register k = EmotionalRegister.from_text text
        /\ time_of_day k = TimeOfDay.from_hour tm_hour
        /\ session_phase k = SessionPhase.from_turn_count turn_count)
  /\ (forall e,
         st = ModelFails e ->
         from_text bi st tm_hour text None None turn_count true = Py.Raise e).
Proof.
  intros _. split.
  - intros use_embeddings Hst.
    pose proof (keyword_cluster_range text) as Htopic.
    eexists. split; [apply from_text_defaults_key; exact Hst |].
    cbn [topic_domain conversation_depth emotional_register time_of_day
           session_phase].
    repeat split; try reflexivity; lia.
  - intros e ->. reflexivity.
Qed.

Lemma from_text_defaults_outcomes_witness :
  from_text CcfPersistence.no_text ModelLoaded 10 "hello" None None 20 true
  = Py.Ok (mk 32 1 0 0 1)
  /\ from_text CcfPersistence.no_text (ModelFails Py.OSError) 10 "hello" None None
       20 true
     = Py.Raise Py.OSError.
Proof.
  split.
  - destruct (proj1 (from_text_defaults_outcomes CcfPersistence.no_text
                       ModelLoaded 10 "hello" 20 eq_refl) true)
      as (k & Hk & _); [discriminate |].
    rewrite Hk. vm_compute in Hk. injection Hk as <-. reflexivity.
  - apply (proj2 (from_text_defaults_outcomes CcfPersistence.no_text
                    (ModelFails Py.OSError) 10 "hello" 20 eq_refl)).
    reflexivity.
Defined.

End KeyMore.

(** ** Labels, breakpoints and the feature vector *)

Section LabelFacts.
Local Open Scope Z_scope.

Lemma lower_char_idempotent c :
  PyStr.lower_char (PyStr.lower_char c) = PyStr.lower_char c.
Proof. destruct c as [[] [] [] [] [] [] [] []]; reflexivity. Qed.

Lemma lower_idempotent s : PyStr.lower (PyStr.lower s) = PyStr.lower s.
Proof.
  induction s as [|c s IH]; [reflexivity |].
  cbn [PyStr.lower]. rewrite lower_char_idempotent, IH. reflexivity.
Qed.

(** X16. Labels and their numbers round-trip: [from_label] gives back the
    value whose [label] it is given, for every depth 0-2 and every register
    0-3; it ignores the case of the label; and whatever it accepts lies in
    the range of the dimension. *)
Theorem labels_round_trip :
  (forall v, 0 <= v <= 2 ->
     ConversationDepth.from_label (ConversationDepth.label v) = Py.Ok v)
  /\ (forall v, 0 <= v <= 3 ->
        EmotionalRegister.from_label (EmotionalRegister.label v) = Py.Ok v)
  /\ (forall s,
        ConversationDepth.from_label (PyStr.lower s) = ConversationDepth.from_label s
        /\ EmotionalRegister.from_label (PyStr.lower s)
           = EmotionalRegister.from_label s)
  /\ (forall s v, ConversationDepth.from_label s = Py.Ok v -> 0 <= v <= 2)
  /\ (forall s v, EmotionalRegister.from_label s = Py.Ok v -> 0 <= v <= 3).
Proof.
  split; [| split; [| split; [| split]]].
  - intros v Hv.
    assert (E : v = 0 \/ v = 1 \/ v = 2) by lia.
    destruct E as [-> | [-> | ->]]; reflexivity.
  - intros v Hv.
    assert (E : v = 0 \/ v = 1 \/ v = 2 \/ v = 3) by lia.
    destruct E as [-> | [-> | [-> | ->]]]; reflexivity.
  - intros s. unfold ConversationDepth.from_label, EmotionalRegister.from_label.
    rewrite lower_idempotent. split; reflexivity.
  - intros s v. unfold ConversationDepth.from_label.
    repeat match goal with
      | |- context [if ?b then _ else _] => destruct b
      end; intros [= <-] || discriminate; lia.
  - intros s v. unfold EmotionalRegister.from_label.
    repeat match goal with
      | |- context [if ?b then _ else _] => destruct b
      end; intros [= <-] || discriminate; lia.
Qed.

Lemma labels_round_trip_witness :
  ConversationDepth.from_label (ConversationDepth.label 2) = Py.Ok 2
  /\ EmotionalRegister.from_label (EmotionalRegister.label 3) = Py.Ok 3.
Proof.
  destruct labels_round_trip as (H1 & H2 & _).
  split; [apply H1; lia | apply H2; lia].
Defined.

(** X17. Depth and session phase are monotone in the turn count and stay in
    0-2; the session phase never runs ahead of the depth, and the depth is
    shallow exactly while the session phase is opening. *)
Theorem turn_count_breakpoints t t' :
  t <= t' ->
  ConversationDepth.from_turn_count t <= ConversationDepth.from_turn_count t'
  /\ SessionPhase.from_turn_count t <= SessionPhase.from_turn_count t'
  /\ 0 <= SessionPhase.from_turn_count t <= ConversationDepth.from_turn_count t
  /\ ConversationDepth.from_turn_count t <= 2
  /\ (ConversationDepth.from_turn_count t = 0
      <-> SessionPhase.from_turn_count t = 0).
Proof.
  intros Ht.
  unfold ConversationDepth.from_turn_count, SessionPhase.from_turn_count,
    ConversationDepth.SHALLOW, ConversationDepth.MODERATE, ConversationDepth.DEEP,
    SessionPhase.OPENING, SessionPhase.MIDDLE, SessionPhase.CLOSING.
  repeat match goal with
    | |- context [(?a <=? ?b)] => destruct (Z.leb_spec a b)
    end; lia.
Qed.

Lemma turn_count_breakpoints_witness :
  ConversationDepth.from_turn_count 3 <= ConversationDepth.from_turn_count 16.
Proof.
  apply (turn_count_breakpoints 3 16). lia.
Defined.

Import TextContextKey.
Local Open Scope Q_scope.

Lemma scaled_in_unit_interval v (m : Z) d :
  (0 <= v <= m)%Z -> 0 < d -> inject_Z m == d ->
  unit_interval (inject_Z v / d).
Proof.
  intros Hv Hd Hm. unfold unit_interval.
  assert (H0 : 0 <= inject_Z v) by (change 0 with (inject_Z 0); rewrite <- Zle_Qle; lia).
  assert (H1 : inject_Z v <= inject_Z m) by (rewrite <- Zle_Qle; lia).
  split.
  - apply Qle_shift_div_l; [exact Hd | lra].
  - apply Qle_shift_div_r; [exact Hd | lra].
Qed.

Lemma scaled_injective v w d :
  0 < d -> inject_Z v / d == inject_Z w / d -> v = w.
Proof.
  intros Hd H.
  assert (H2 : ~ d == 0) by lra.
  apply inject_Z_injective.
  rewrite <- (Qmult_div_r (inject_Z v) d H2), <- (Qmult_div_r (inject_Z w) d H2).
  rewrite H. reflexivity.
Qed.

(** X18. The feature vector of a valid fingerprint has five components, all
    in [0, 1], and tells fingerprints apart: equal vectors mean equal
    fields. *)
Theorem feature_vector_normalised td cd er tod sp k :
  new td cd er tod sp = Py.Ok k ->
  length (feature_vector k) = 5%nat
  /\ Forall unit_interval (feature_vector k)
  /\ (forall k', Forall2 Qeq (feature_vector k) (feature_vector k') -> k = k').
Proof.
  intros H. apply new_ok in H as (-> & ? & ? & ? & ? & ?).
  unfold feature_vector.
  cbn [topic_domain conversation_depth emotional_register time_of_day session_phase].
  split; [reflexivity | split].
  - constructor.
    { apply (scaled_in_unit_interval td 63); first [lia | reflexivity]. }
    constructor.
    { apply (scaled_in_unit_interval cd 2); first [lia | reflexivity]. }
    constructor.
    { apply (scaled_in_unit_interval er 3); first [lia | reflexivity]. }
    constructor.
    { apply (scaled_in_unit_interval tod 3); first [lia | reflexivity]. }
    constructor.
    { apply (scaled_in_unit_interval sp 2); first [lia | reflexivity]. }
    constructor.
  - intros [td' cd' er' tod' sp'].
    cbn [topic_domain conversation_depth emotional_register time_of_day
           session_phase].
    intros Hvec. repeat match goal with
      | Hv : Forall2 _ (_ :: _) (_ :: _) |- _ =>
          apply Forall2_cons_iff in Hv; destruct Hv as [? Hv]
      end.
    f_equal; eapply scaled_injective; try eassumption; reflexivity.
Qed.

Lemma feature_vector_normalised_witness :
  Forall unit_interval (feature_vector (mk 63 1 3 0 2)).
Proof.
  destruct (feature_vector_normalised 63 1 3 0 2 (mk 63 1 3 0 2) eq_refl)
    as (_ & H & _).
  exact H.
Defined.

End LabelFacts.

(** ** Prompt templates *)

Section PromptFacts.
Import SocialPhase.

Lemma builtin_templates phase :
  exists builtin,
    DEFAULT_PHASE_TEMPLATES !! phase = Some builtin
    /\ PHASE_TEMPLATES !! value phase = Some builtin.
Proof. destruct phase; eexists; split; vm_compute; reflexivity. Qed.

Lemma get_prompt_injection_lookup phase builtin custom_templates :
  PHASE_TEMPLATES !! value phase = Some builtin ->
  get_prompt_injection phase custom_templates
  = Py.Ok match custom_templates with
          | Some custom => default builtin (custom !! value phase)
          | None => builtin
          end.
Proof.
  intros Hnamed.
  destruct custom_templates as [custom|];
    unfold get_prompt_injection, template_item;
    [| rewrite Hnamed; reflexivity].
  destruct (custom !! value phase) as [text|] eqn:E; cbn [default].
  - assert (Hne : custom <> ∅)
      by (intros ->; rewrite lookup_empty in E; discriminate E).
    rewrite (bool_decide_eq_false_2 _ Hne).
    rewrite bool_decide_eq_true_2 by (exists text; reflexivity).
    cbn [negb andb]. reflexivity.
  - rewrite (bool_decide_eq_false_2 (is_Some None))
      by (intros [? ?]; discriminate).
    rewrite andb_false_r, Hnamed. reflexivity.
Qed.

(** X19. Neither lookup of a phase's prompt ever fails, and both fall back to
    the same built-in text: [get_system_prompt] (overrides keyed by phase)
    and [get_prompt_injection] (overrides keyed by phase name) return the
    override when the caller's table has one for the phase and the built-in
    template otherwise, also for an empty or absent table. *)
Theorem prompt_lookup_falls_back phase :
  exists builtin,
    DEFAULT_PHASE_TEMPLATES !! phase = Some builtin
    /\ PHASE_TEMPLATES !! value phase = Some builtin
    /\ (forall templates,
           get_system_prompt phase templates
           = Py.Ok match templates with
                   | Some t => default builtin (t !! phase)
                   | None => builtin
                   end)
    /\ (forall custom_templates,
           get_prompt_injection phase custom_templates
           = Py.Ok match custom_templates with
                   | Some custom => default builtin (custom !! value phase)
                   | None => builtin
                   end).
Proof.
  destruct (builtin_templates phase) as (builtin & Hdefault & Hnamed).
  exists builtin. split; [exact Hdefault | split; [exact Hnamed | split]].
  - intros templates. unfold get_system_prompt, template_item.
    rewrite Hdefault. cbn [Py.bind].
    destruct templates as [t|]; [reflexivity |]. rewrite Hdefault. reflexivity.
  - intros custom_templates. apply get_prompt_injection_lookup. exact Hnamed.
Qed.

Lemma lstrip_space_nil l :
  PyStr.lstrip_space l = [] <-> forallb PyStr.is_space l = true.
Proof.
  induction l as [|c l IH]; cbn; [tauto |].
  destruct (PyStr.is_space c); cbn; [exact IH | split; discriminate].
Qed.

Lemma lstrip_space_all_space l :
  forallb PyStr.is_space (PyStr.lstrip_space l) = true -> PyStr.lstrip_space l = [].
Proof.
  induction l as [|c l IH]; cbn; [reflexivity |].
  destruct (PyStr.is_space c) eqn:E; [exact IH |].
  cbn. rewrite E. discriminate.
Qed.

Lemma forallb_rev {A} (f : A -> bool) l : forallb f (rev l) = forallb f l.
Proof.
  induction l as [|a l IH]; [reflexivity |].
  cbn. rewrite forallb_app, IH. cbn. rewrite andb_true_r. apply andb_comm.
Qed.

(** A string strips to nothing exactly when it is all white space. *)
Lemma strip_space_empty s :
  PyStr.strip_space s = EmptyString
  <-> forallb PyStr.is_space (list_ascii_of_string s) = true.
Proof.
  unfold PyStr.strip_space. set (l := list_ascii_of_string s). split.
  - intros H. apply (f_equal list_ascii_of_string) in H.
    rewrite list_ascii_of_string_of_list_ascii in H. cbn in H.
    apply (f_equal (@rev ascii)) in H. rewrite rev_involutive in H. cbn in H.
    apply lstrip_space_nil in H. rewrite forallb_rev in H.
    apply lstrip_space_all_space in H. apply lstrip_space_nil. exact H.
  - intros H. apply lstrip_space_nil in H. rewrite H. reflexivity.
Qed.

Lemma append_empty_r s : String.append s EmptyString = s.
Proof.
  induction s as [|c s IH]; [reflexivity |].
  change (String c (String.append s EmptyString) = String c s).
  rewrite IH. reflexivity.
Qed.

(** X20. For a caller's prompt of ASCII characters, [build_system_prompt]
    never fails and always puts the behavioural injection first: the result
    is the injection alone when the caller's prompt is empty or all white
    space, and otherwise the injection, a blank line and the caller's prompt
    unchanged. *)
Theorem build_system_prompt_injection_first base_prompt phase custom_templates :
  PyStr.is_ascii base_prompt = true ->
  exists injection,
    get_prompt_injection phase custom_templates = Py.Ok injection
    /\ build_system_prompt base_prompt phase custom_templates
       = Py.Ok (if forallb PyStr.is_space (list_ascii_of_string base_prompt)
                then injection
                else String.append injection (String.append blank_line base_prompt))
    /\ exists rest,
        build_system_prompt base_prompt phase custom_templates
        = Py.Ok (String.append injection rest).
Proof.
  intros _.
  destruct (builtin_templates phase) as (builtin & _ & Hnamed).
  pose proof (get_prompt_injection_lookup phase builtin custom_templates Hnamed)
    as Hinj.
  eexists. split; [exact Hinj |].
  unfold build_system_prompt. rewrite Hinj. cbn [Py.bind].
  destruct (forallb PyStr.is_space (list_ascii_of_string base_prompt)) eqn:E.
  - apply strip_space_empty in E. rewrite E. cbn [PyStr.truthy].
    split; [reflexivity |]. exists EmptyString.
    rewrite append_empty_r. reflexivity.
  - destruct (PyStr.strip_space base_prompt) eqn:Es.
    + apply strip_space_empty in Es. congruence.
    + cbn [PyStr.truthy]. split; [reflexivity |]. eexists. reflexivity.
Qed.

Lemma build_system_prompt_injection_first_witness :
  exists injection,
    get_prompt_injection ShyObserver None = Py.Ok injection
    /\ build_system_prompt "Be brief." ShyObserver None
       = Py.Ok (String.append injection (String.append blank_line "Be brief."))
    /\ build_system_prompt "  " ShyObserver None = Py.Ok injection.
Proof.
  destruct (build_system_prompt_injection_first "Be brief." ShyObserver None
              eq_refl) as (injection & Hinj & Hfull & _).
  destruct (build_system_prompt_injection_first "  " ShyObserver None eq_refl)
    as (injection' & Hinj' & Hblank & _).
  exists injection. split; [exact Hinj |]. split; [exact Hfull |].
  rewrite Hinj in Hinj'. injection Hinj' as <-. exact Hblank.
Defined.

End PromptFacts.

(** ** Persistence, continued *)

Section PersistenceMore.
Import Py Fs CcfPersistence.
Variable bi : builtins.


(** The records [load] iterates over, when it succeeds. *)
Lemma load_ok_contexts d path m records loaded pers :
  d !! path = Some (Document (VDict m)) ->
  m !! "contexts" = Some (VList records) ->
  load bi d path = Ok (Some loaded, pers) ->
  load_contexts bi records ∅ = Ok loaded.
Proof.
  intros Hfile Hc. rewrite (load_object bi d path m Hfile).
  destruct (gt_int _ _) as [[|]|]; try discriminate.
  unfold load_body. cbn [get]. rewrite Hc.
  repeat match goal with
    | |- Py.bind ?r _ = _ -> _ => destruct r; cbn [Py.bind iter]; [| discriminate]
    end.
  intros [= -> _]. reflexivity.
Qed.

Lemma load_contexts_provenance records : forall accumulators loaded,
  load_contexts bi records accumulators = Ok loaded ->
  forall ctx_hash e,
    loaded !! ctx_hash = Some e ->
    accumulators !! ctx_hash = Some e
    \/ exists r, r ∈ records /\ load_record bi r = Ok (ctx_hash, e).
Proof.
  induction records as [|r records IH]; intros accumulators loaded;
    cbn [load_contexts].
  - intros [= ->] ctx_hash e He. left. exact He.
  - destruct (load_record bi r) as [[h' e']|x] eqn:E.
    + intros Hrest ctx_hash e He.
      destruct (IH _ _ Hrest _ _ He) as [Hacc | (r' & Hin & Hr')].
      * destruct (decide (h' = ctx_hash)) as [-> | Hne].
        -- rewrite lookup_insert_eq in Hacc. injection Hacc as ->.
           right. exists r. split; [left | exact E].
        -- rewrite lookup_insert_ne in Hacc by exact Hne. left. exact Hacc.
      * right. exists r'. split; [right; exact Hin | exact Hr'].
    + destruct (skipped x); [| discriminate].
      intros Hrest ctx_hash e He.
      destruct (IH _ _ Hrest _ _ He) as [Hacc | (r' & Hin & Hr')].
      * left. exact Hacc.
      * right. exists r'. split; [right; exact Hin | exact Hr'].
Qed.

(** X22. [load] invents no context: every entry it returns was read from
    one of the records of the file's ["contexts"] list, with the hash and the
    values that record converts to. *)
Theorem loaded_entries_come_from_records d path m records loaded pers :
  d !! path = Some (Document (VDict m)) ->
  m !! "contexts" = Some (VList records) ->
  load bi d path = Ok (Some loaded, pers) ->
  forall ctx_hash e,
    loaded !! ctx_hash = Some e ->
    exists r, r ∈ records /\ load_record bi r = Ok (ctx_hash, e).
Proof.
  intros Hfile Hc Hload ctx_hash e He.
  pose proof (load_ok_contexts _ _ _ _ _ _ Hfile Hc Hload) as Hloop.
  destruct (load_contexts_provenance _ _ _ Hloop _ _ He) as [Hempty | Hrec].
  - rewrite lookup_empty in Hempty. discriminate.
  - exact Hrec.
Qed.

Lemma load_contexts_keeps after ctx_hash : forall accumulators loaded,
  Forall (fun r => forall e, load_record bi r <> Ok (ctx_hash, e)) after ->
  load_contexts bi after accumulators = Ok loaded ->
  loaded !! ctx_hash = accumulators !! ctx_hash.
Proof.
  induction after as [|r after IH]; intros accumulators loaded Hafter;
    cbn [load_contexts].
  - intros [= ->]. reflexivity.
  - apply Forall_cons in Hafter as [Hr Hafter].
    destruct (load_record bi r) as [[h' e']|x] eqn:E.
    + intros Hl. rewrite (IH _ _ Hafter Hl).
      apply lookup_insert_ne. intros ->. exact (Hr e' eq_refl).
    + destruct (skipped x); [| discriminate]. apply IH. exact Hafter.
Qed.

(** X23. When several records of a file carry the same context hash, the
    last of them wins: the entry loaded for the hash is the one the last
    record that converts to this hash holds. *)
Theorem last_record_of_a_context_wins
    d path m before r after ctx_hash e loaded pers :
  d !! path = Some (Document (VDict m)) ->
  m !! "contexts" = Some (VList (before ++ r :: after)) ->
  load_record bi r = Ok (ctx_hash, e) ->
  Forall (fun r' => forall e', load_record bi r' <> Ok (ctx_hash, e')) after ->
  load bi d path = Ok (Some loaded, pers) ->
  loaded !! ctx_hash = Some e.
Proof.
  intros Hfile Hc Hr Hafter Hload.
  pose proof (load_ok_contexts _ _ _ _ _ _ Hfile Hc Hload) as Hloop.
  rewrite load_contexts_app in Hloop.
  destruct (load_contexts bi before ∅) as [mid|]; [| discriminate Hloop].
  cbn [Py.bind load_contexts] in Hloop. rewrite Hr in Hloop.
  rewrite (load_contexts_keeps after ctx_hash _ _ Hafter Hloop).
  apply lookup_insert_eq.
Qed.

(** *** What [save] does to the directory *)

Lemma context_record_raises_kind it e :
  context_record bi it = Raise e ->
  e = KeyError \/ e = ValueError \/ e = TypeError \/ e = OverflowError.
Proof.
  destruct it as [ctx_hash acc]. unfold context_record, item.
  repeat match goal with
    | |- Py.bind (match ?l with Some _ => _ | None => _ end) _ = _ -> _ =>
        destruct l; cbn [Py.bind]; [| intros [= <-]; auto]
    | |- Py.bind ?r _ = _ -> _ =>
        let E := fresh "E" in
        destruct r eqn:E; cbn [Py.bind];
        [| intros [= <-]; right;
           first [apply float_raises in E; tauto
                 | apply int_raises in E; tauto]]
    end.
  discriminate.
Qed.

Lemma context_record_incomplete ctx_hash acc :
  acc !! "coherence" = None \/ acc !! "earned_floor" = None
  \/ acc !! "interaction_count" = None ->
  exists e, context_record bi (ctx_hash, acc) = Raise e.
Proof.
  intros Hmissing. unfold context_record, item.
  repeat match goal with
    | |- exists e, Py.bind (match ?l with Some _ => _ | None => _ end) _ = _ =>
        destruct l eqn:?; cbn [Py.bind]; [| eauto]
    | |- exists e, Py.bind ?r _ = _ =>
        destruct r; cbn [Py.bind]; [| eauto]
    end.
  destruct Hmissing as [H | [H | H]]; discriminate H.
Qed.

Lemma mapM_raises {A B} (f : A -> result B) l x e :
  x ∈ l -> f x = Raise e ->
  exists y e', y ∈ l /\ f y = Raise e' /\ mapM f l = Raise e'.
Proof.
  induction l as [|a l IH]; intros Hin Hx.
  - apply elem_of_nil in Hin. destruct Hin.
  - cbn [mapM]. destruct (f a) as [b|e0] eqn:Ea; cbn [Py.bind].
    + apply elem_of_cons in Hin as [-> | Hin]; [congruence |].
      destruct (IH Hin Hx) as (y & e' & Hy & Hfy & Hm).
      exists y, e'. rewrite Hm. cbn [Py.bind].
      split; [right; exact Hy | split; [exact Hfy | reflexivity]].
    + exists a, e0. split; [left | split; [exact Ea | reflexivity]].
Qed.

(** X24. [save] builds the whole snapshot before it touches the disk: when
    one accumulator dict lacks ["coherence"], ["earned_floor"] or
    ["interaction_count"], [save] raises and the directory has not gone
    through any other state: no directory is created, no temporary file
    appears and the destination keeps its bytes.  What it raises is the
    KeyError of the missing key, or what a conversion met before it raised:
    ValueError, TypeError, or the OverflowError of [float] on an int too
    large (the personality is converted first). *)
Theorem save_rejects_incomplete_accumulator
    ev accumulators pers path ccf_version ctx_hash acc w :
  accumulators !! ctx_hash = Some acc ->
  acc !! "coherence" = None \/ acc !! "earned_floor" = None
  \/ acc !! "interaction_count" = None ->
  exists e,
    save bi ev accumulators pers path ccf_version w = (Raise e, w)
    /\ (e = KeyError \/ e = ValueError \/ e = TypeError \/ e = OverflowError).
Proof.
  intros Hacc Hmissing.
  destruct (context_record_incomplete ctx_hash acc Hmissing) as [e0 He0].
  apply elem_of_map_to_list in Hacc.
  destruct (mapM_raises (context_record bi) _ _ _ Hacc He0)
    as (y & e' & _ & Hy & Hm).
  unfold save, Fs.bind, lift, snapshot.
  destruct (Py.float bi (lookup_default pers "curiosity" (VFloat 0.5)))
    as [cur|e1] eqn:E1; cbn [Py.bind].
  2:{ exists e1. split; [reflexivity |]. right.
      eapply float_raises; eassumption. }
  destruct (Py.float bi (lookup_default pers "recovery" (VFloat 0.5)))
    as [rec|e2] eqn:E2; cbn [Py.bind].
  2:{ exists e2. split; [reflexivity |]. right.
      eapply float_raises; eassumption. }
  rewrite Hm. cbn [Py.bind]. exists e'. split; [reflexivity |].
  eapply context_record_raises_kind; eassumption.
Qed.



End PersistenceMore.

(** ** demo.py: the field across restarts *)

Section DemoFacts.
Import Py Fs CcfPersistence.
Variable bi : builtins.




Lemma fold_insert_list_to_map `{Countable K} {A} (pairs : list (K * A)) :
  forall m : gmap K A,
  NoDup (pairs.*1) ->
  fold_left (fun a it => <[fst it := snd it]> a) pairs m = list_to_map pairs ∪ m.
Proof.
  induction pairs as [|[k x] pairs IH]; intros m Hnd.
  - cbn. symmetry. apply (left_id_L ∅ (∪)).
  - rewrite fmap_cons in Hnd. apply NoDup_cons in Hnd as [Hnotin Hnd].
    cbn [fold_left fst snd list_to_map foldr uncurry].
    rewrite IH by assumption.
    rewrite <- insert_union_l.
    symmetry. apply insert_union_r.
    apply not_elem_of_list_to_map. exact Hnotin.
Qed.









End DemoFacts.

(** ** coherence_field_py.py: the dict forms *)

Section DictFacts.
Import Py.
Variable bi : builtins.

(** X28. An accumulator and its dict form: [from_dict] reads back what
    [to_dict] wrote, [from_dict] of an empty dict is a fresh accumulator (every
    field has a default), and [from_dict] of a value that is not a dict raises
    AttributeError. *)
Theorem accumulator_dict_round_trip :
  (forall acc,
      _Accumulator.from_dict bi (VDict (_Accumulator.to_dict acc)) = Ok acc)
  /\ _Accumulator.from_dict bi (VDict ∅) = Ok _Accumulator.new
  /\ (forall data,
         (forall m, data <> VDict m) ->
         _Accumulator.from_dict bi data = Raise AttributeError).
Proof.
  split; [| split].
  - intros [c f n]. unfold _Accumulator.from_dict, _Accumulator.to_dict, get.
    simplify_map_eq. reflexivity.
  - reflexivity.
  - intros data Hnot. destruct data; try reflexivity.
    destruct (Hnot m eq_refl).
Qed.

Lemma from_dict_to_dict acc :
  _Accumulator.from_dict bi (VDict (_Accumulator.to_dict acc)) = Ok acc.
Proof.
  destruct acc as [c f n].
  unfold _Accumulator.from_dict, _Accumulator.to_dict, get.
  simplify_map_eq. reflexivity.
Qed.

Lemma NoDup_fmap_retract {A B} (f : A -> B) (g : B -> option A) (l : list A) :
  (forall x, x ∈ l -> g (f x) = Some x) ->
  NoDup l -> NoDup (f <$> l).
Proof.
  induction l as [|a l IH]; intros Hg Hnd; [constructor |].
  apply NoDup_cons in Hnd as [Hnotin Hnd].
  rewrite fmap_cons. apply NoDup_cons. split.
  - intros Hin. apply list_elem_of_fmap in Hin as (y & Hfy & Hy).
    assert (a = y).
    { assert (Ha : g (f a) = Some a) by (apply Hg; left).
      assert (Hy' : g (f y) = Some y) by (apply Hg; right; exact Hy).
      congruence. }
    subst y. exact (Hnotin Hy).
  - apply IH; [| exact Hnd]. intros x Hx. apply Hg. right. exact Hx.
Qed.

Lemma accumulator_item_keys (pairs : list (Z * _Accumulator.t)) :
  (accumulator_item bi <$> pairs).*1
  = (fun k => str_of_value bi (VInt k)) <$> pairs.*1.
Proof.
  induction pairs as [|[k a] pairs IH]; [reflexivity |].
  rewrite !fmap_cons, IH. reflexivity.
Qed.

Lemma accumulators_to_dict_fold (pairs : list (Z * _Accumulator.t)) :
  forall d : gmap string value,
  fold_left
    (fun d kv =>
       <[Py.str bi (VInt (fst kv)) := VDict (_Accumulator.to_dict (snd kv))]> d)
    pairs d
  = fold_left (fun a it => <[fst it := snd it]> a) (accumulator_item bi <$> pairs) d.
Proof.
  induction pairs as [|kv pairs IH]; intros d; [reflexivity |].
  rewrite fmap_cons. cbn [fold_left fst snd]. apply IH.
Qed.

Section RoundTrip.
Variable accs : gmap Z _Accumulator.t.
Hypothesis int_of_str_of_int :
  forall k, is_Some (accs !! k) ->
    int_of_str bi (str_of_value bi (VInt k)) = Some k.

Lemma keys_distinct :
  NoDup ((accumulator_item bi <$> map_to_list accs).*1).
Proof.
  rewrite accumulator_item_keys.
  apply (NoDup_fmap_retract _ (int_of_str bi)).
  - intros k Hk. apply int_of_str_of_int.
    apply list_elem_of_fmap in Hk as ([k' a] & -> & Hin).
    apply elem_of_map_to_list in Hin. cbn. eauto.
  - apply NoDup_fst_map_to_list.
Qed.

Lemma accumulators_to_dict_list :
  CoherenceFieldPy.accumulators_to_dict bi accs
  = list_to_map (accumulator_item bi <$> map_to_list accs).
Proof.
  unfold CoherenceFieldPy.accumulators_to_dict.
  rewrite accumulators_to_dict_fold.
  rewrite fold_insert_list_to_map by apply keys_distinct.
  apply (right_id_L ∅ (∪)).
Qed.

Lemma accumulators_to_dict_items pairs :
  Forall (fun p => p ∈ map_to_list (CoherenceFieldPy.accumulators_to_dict bi accs))
         pairs ->
  exists typed,
    pairs = accumulator_item bi <$> typed
    /\ Forall (fun kv => accs !! fst kv = Some (snd kv)) typed.
Proof.
  induction pairs as [|[s v] pairs IH]; intros Hall.
  - exists []. split; [reflexivity | constructor].
  - apply Forall_cons in Hall as [Hp Hall].
    destruct (IH Hall) as (typed & -> & Htyped).
    apply elem_of_map_to_list in Hp.
    rewrite accumulators_to_dict_list in Hp.
    apply elem_of_list_to_map_2 in Hp.
    apply list_elem_of_fmap in Hp as ([k a] & Heq & Hin).
    apply elem_of_map_to_list in Hin.
    exists ((k, a) :: typed). split.
    + rewrite fmap_cons. f_equal. exact Heq.
    + constructor; [exact Hin | exact Htyped].
Qed.

Lemma from_dict_items_typed typed : forall field,
  Forall (fun kv => accs !! fst kv = Some (snd kv)) typed ->
  CoherenceFieldPy.from_dict_items bi (accumulator_item bi <$> typed) field
  = Ok (CoherenceFieldPy.mk (CoherenceFieldPy.curiosity_drive field)
          (CoherenceFieldPy.recovery_rate field)
          (fold_left (fun a it => <[fst it := snd it]> a) typed
             (CoherenceFieldPy._accumulators field))).
Proof.
  induction typed as [|[k a] typed IH]; intros field Htyped.
  - destruct field. reflexivity.
  - apply Forall_cons in Htyped as [Hk Htyped]. cbn [fst snd] in Hk.
    rewrite fmap_cons.
    cbn [CoherenceFieldPy.from_dict_items accumulator_item fst snd].
    rewrite from_dict_to_dict. cbn [Py.bind Py.int Py.str].
    rewrite int_of_str_of_int by eauto. cbn [Py.bind].
    rewrite IH by exact Htyped. reflexivity.
Qed.

Lemma from_dict_items_accumulators c r :
  CoherenceFieldPy.from_dict_items bi
    (map_to_list (CoherenceFieldPy.accumulators_to_dict bi accs))
    (CoherenceFieldPy.mk c r ∅)
  = Ok (CoherenceFieldPy.mk c r accs).
Proof.
  destruct (accumulators_to_dict_items
              (map_to_list (CoherenceFieldPy.accumulators_to_dict bi accs)))
    as (typed & Hpairs & Htyped).
  { apply Forall_forall. auto. }
  pose proof (NoDup_fst_map_to_list
                (CoherenceFieldPy.accumulators_to_dict bi accs)) as Hnd.
  rewrite Hpairs in Hnd |- *.
  rewrite accumulator_item_keys in Hnd.
  apply NoDup_fmap_1 in Hnd.
  rewrite (from_dict_items_typed typed _ Htyped).
  cbn [CoherenceFieldPy.curiosity_drive CoherenceFieldPy.recovery_rate
       CoherenceFieldPy._accumulators].
  rewrite fold_insert_list_to_map by exact Hnd.
  rewrite (right_id_L ∅ (∪)).
  do 2 f_equal. apply map_eq. intros k.
  destruct (accs !! k) as [a|] eqn:Hk.
  - apply elem_of_list_to_map_1; [exact Hnd |].
    assert (Hin : accumulator_item bi (k, a)
                  ∈ map_to_list (CoherenceFieldPy.accumulators_to_dict bi accs)).
    { apply elem_of_map_to_list. rewrite accumulators_to_dict_list.
      apply elem_of_list_to_map_1; [apply keys_distinct |].
      apply list_elem_of_fmap. exists (k, a). split; [reflexivity |].
      apply elem_of_map_to_list. exact Hk. }
    rewrite Hpairs in Hin.
    apply list_elem_of_fmap in Hin as ([k' a'] & Heq & Hin').
    pose proof (proj1 (Forall_forall _ _) Htyped _ Hin') as Hk'.
    cbn [fst snd] in Hk', Heq. injection Heq as Hstr _.
    assert (k' = k).
    { assert (H1 : int_of_str bi (str_of_value bi (VInt k)) = Some k)
        by (apply int_of_str_of_int; eauto).
      assert (H2 : int_of_str bi (str_of_value bi (VInt k')) = Some k')
        by (apply int_of_str_of_int; eauto).
      cbn [Py.str] in Hstr. congruence. }
    subst k'. rewrite Hk in Hk'. injection Hk' as ->. exact Hin'.
  - apply not_elem_of_list_to_map_1. intros Hin.
    apply list_elem_of_fmap in Hin as ([k' a'] & -> & Hin').
    pose proof (proj1 (Forall_forall _ _) Htyped _ Hin') as Hk'.
    cbn [fst snd] in Hk', Hk. congruence.
Qed.

End RoundTrip.

(** X29. A field and its dict form, as the Ollama middleware stores it:
    when the personality is in range and [int(str(k))] gives back [k] for
    every context hash of the field, [from_dict] of [to_dict] is the field
    itself, with every accumulator under its hash. *)
Theorem field_dict_round_trip field :
  field_well_formed field ->
  (forall k,
      is_Some (CoherenceFieldPy._accumulators field !! k) ->
      int_of_str bi (str_of_value bi (VInt k)) = Some k) ->
  CoherenceFieldPy.from_dict bi (CoherenceFieldPy.to_dict bi field) = Ok field.
Proof.
  intros ([Hc0 Hc1] & [Hr0 Hr1] & _) Hint.
  destruct field as [c r accs].
  cbn [CoherenceFieldPy.curiosity_drive CoherenceFieldPy.recovery_rate
       CoherenceFieldPy._accumulators] in *.
  unfold CoherenceFieldPy.from_dict, CoherenceFieldPy.to_dict, get.
  cbn [CoherenceFieldPy.curiosity_drive CoherenceFieldPy.recovery_rate
       CoherenceFieldPy._accumulators].
  simplify_map_eq. cbn [Py.bind Py.float].
  unfold CoherenceFieldPy.new.
  assert (E1 : Qle_bool 0.0 c = true) by (apply Qle_bool_iff; lra).
  assert (E2 : Qle_bool c 1.0 = true) by (apply Qle_bool_iff; lra).
  assert (E3 : Qle_bool 0.0 r = true) by (apply Qle_bool_iff; lra).
  assert (E4 : Qle_bool r 1.0 = true) by (apply Qle_bool_iff; lra).
  rewrite E1, E2, E3, E4. cbn [negb andb Py.bind items].
  apply from_dict_items_accumulators. exact Hint.
Qed.

End DictFacts.

(** [int(str(k))] is [k] for decimal numerals. *)
Lemma decimal_text_int_of_str k :
  Py.int_of_str decimal_text (Py.str_of_value decimal_text (Py.VInt k)) = Some k.
Proof.
  cbn [decimal_text Py.int_of_str Py.str_of_value].
  rewrite NilZero.isi.
  - cbn [option_map]. f_equal. apply DecimalZ.of_to.
  - destruct k; cbn; try discriminate.
    intros H. injection H as H. exact (Unsigned.to_uint_nonnil _ H).
  - destruct k; cbn; try discriminate.
    intros H. injection H as H. exact (Unsigned.to_uint_nonnil _ H).
Qed.

(** *** The further persistence and dict theorems on concrete inputs *)

Section MoreExamples.
Import Py Fs CcfPersistence.
Local Open Scope Q_scope.


Lemma loaded_entries_come_from_records_witness :
  exists r,
    r ∈ [record_value (7%Z, mk_entry 0.1 0.03 10 "ShyObserver")]
    /\ load_record no_text r = Ok (7%Z, mk_entry 0.1 0.03 10 "ShyObserver").
Proof.
  apply (loaded_entries_come_from_records no_text
           {["state.ccf.json" :=
               Document
                 (VDict
                    {["contexts" :=
                        VList [record_value
                                 (7%Z, mk_entry 0.1 0.03 10 "ShyObserver")]]})]}
           "state.ccf.json"
           {["contexts" :=
               VList [record_value (7%Z, mk_entry 0.1 0.03 10 "ShyObserver")]]}
           [record_value (7%Z, mk_entry 0.1 0.03 10 "ShyObserver")]
           {[7%Z := mk_entry 0.1 0.03 10 "ShyObserver"]}
           (Some (mk_personality 0.5 0.5)));
    vm_compute; reflexivity.
Defined.

Lemma last_record_of_a_context_wins_witness :
  ({[7%Z := mk_entry 0.4 0.1 12 "BuildingTrust"]} : gmap Z entry) !! 7%Z
  = Some (mk_entry 0.4 0.1 12 "BuildingTrust").
Proof.
  apply (last_record_of_a_context_wins no_text
           {["state.ccf.json" :=
               Document
                 (VDict
                    {["contexts" :=
                        VList [record_value (7%Z, mk_entry 0.1 0.03 10 "ShyObserver");
                               record_value (7%Z, mk_entry 0.4 0.1 12 "BuildingTrust");
                               VNone]]})]}
           "state.ccf.json"
           {["contexts" :=
               VList [record_value (7%Z, mk_entry 0.1 0.03 10 "ShyObserver");
                      record_value (7%Z, mk_entry 0.4 0.1 12 "BuildingTrust");
                      VNone]]}
           [record_value (7%Z, mk_entry 0.1 0.03 10 "ShyObserver")]
           (record_value (7%Z, mk_entry 0.4 0.1 12 "BuildingTrust"))
           [VNone]
           7%Z (mk_entry 0.4 0.1 12 "BuildingTrust")
           {[7%Z := mk_entry 0.4 0.1 12 "BuildingTrust"]}
           (Some (mk_personality 0.5 0.5))).
  - vm_compute; reflexivity.
  - vm_compute; reflexivity.
  - vm_compute; reflexivity.
  - constructor; [intros e'; discriminate | constructor].
  - vm_compute; reflexivity.
Defined.

Lemma save_rejects_incomplete_accumulator_witness :
  let ev := {| now := "2026-02-23T10:00:00+00:00";
               tmp_name := "tmpk3v9x2qa.ccf.tmp";
               fault_at := NoFault;
               unlink_fails := false |} in
  let accumulators : gmap Z (gmap string value) :=
    {[1%Z := {["coherence" := VFloat 0.1]}]} in
  exists e,
    save no_text ev accumulators ∅ "state.ccf.json" "0.1.4" (start ∅)
    = (Raise e, start ∅)
    /\ (e = KeyError \/ e = ValueError \/ e = TypeError \/ e = OverflowError).
Proof.
  intros ev accumulators.
  apply (save_rejects_incomplete_accumulator no_text ev accumulators ∅
           "state.ccf.json" "0.1.4" 1%Z {["coherence" := VFloat 0.1]} (start ∅)).
  - reflexivity.
  - right. left. reflexivity.
Defined.




Lemma accumulator_dict_round_trip_witness :
  _Accumulator.from_dict no_text (VDict (_Accumulator.to_dict (_Accumulator.mk 0.12 0.036 2)))
  = Ok (_Accumulator.mk 0.12 0.036 2)
  /\ _Accumulator.from_dict no_text (VList []) = Raise AttributeError.
Proof.
  split.
  - apply (proj1 (accumulator_dict_round_trip no_text)).
  - apply (proj2 (proj2 (accumulator_dict_round_trip no_text))). discriminate.
Defined.

Lemma field_dict_round_trip_witness :
  let field :=
    CoherenceFieldPy.mk 0.5 0.5
      (<[3735928559%Z := _Accumulator.mk 0.12 0.036 2]>
         {[7%Z := _Accumulator.mk 0.06 0.018 1]}) in
  CoherenceFieldPy.from_dict decimal_text (CoherenceFieldPy.to_dict decimal_text field)
  = Ok field.
Proof.
  intros field.
  apply (field_dict_round_trip decimal_text field).
  - unfold field_well_formed, unit_interval; cbn.
    split; [lra | split; [lra |]].
    apply map_Forall_insert_2; [unfold well_formed; cbn; lra |].
    apply map_Forall_singleton. unfold well_formed; cbn. lra.
  - intros k _. apply decimal_text_int_of_str.
Defined.

End MoreExamples.

(** ** demo.py: the scripted run *)

Section HeadlessFacts.
Import Py SocialPhase social_phase.
Local Open Scope Q_scope.
Variable bi : builtins.
Variable st : sentence_transformers.
Variable clock : Z -> Z.

(** What holds of the field and the phase when turn [k] starts: after [k]
    positive interactions at curiosity 0.5 no context has more than
    [0.06 * k] coherence, and the phase is a settled one, still ShyObserver
    during the first five turns. *)
Lemma headless_turn_reports (k : nat) field phase :
  field_well_formed field ->
  map_Forall (fun _ acc =>
                _Accumulator.coherence acc <= 0.06 * inject_Z (Z.of_nat k))
             (CoherenceFieldPy._accumulators field) ->
  settled phase ->
  ((k <= 5)%nat -> phase = ShyObserver) ->
  exists line field' phase',
    headless_turn bi st (clock (Z.of_nat k)) (Z.of_nat k) field phase
    = Ok (line, field', phase')
    /\ interaction_count_display line = (Z.of_nat k + 1)%Z
    /\ phase_label line = value phase'
    /\ 0 <= coherence_pct line /\ coherence_pct line <= 0.91
    /\ ((k < 5)%nat ->
        coherence_pct line <= 0.06 * inject_Z (Z.of_nat k))
    /\ field_well_formed field'
    /\ map_Forall (fun _ acc =>
                     _Accumulator.coherence acc
                     <= 0.06 * inject_Z (Z.of_nat (S k)))
                  (CoherenceFieldPy._accumulators field')
    /\ settled phase'
    /\ ((S k <= 5)%nat -> phase' = ShyObserver).
Proof.
  intros (Hc & Hr & Haccs) Hbound Hsettled Hearly.
  unfold headless_turn. rewrite from_text_defaults_key by discriminate.
  cbn [Py.bind].
  set (ctx_hash := TextContextKey.context_hash _).
  rewrite get_or_create_lookup.
  set (acc := default _Accumulator.new
                (CoherenceFieldPy._accumulators field !! ctx_hash)).
  assert (Hk0 : 0 <= inject_Z (Z.of_nat k))
    by (change 0 with (inject_Z 0); rewrite <- Zle_Qle; lia).
  assert (HSk : inject_Z (Z.of_nat (S k)) == inject_Z (Z.of_nat k) + 1)
    by (rewrite Nat2Z.inj_succ; unfold Z.succ; rewrite inject_Z_plus;
        reflexivity).
  assert (Hacc : well_formed acc
                 /\ _Accumulator.coherence acc <= 0.06 * inject_Z (Z.of_nat k)).
  { subst acc.
    destruct (CoherenceFieldPy._accumulators field !! ctx_hash) as [a|] eqn:E;
      cbn [default].
    - split; [exact (Haccs _ _ E) | exact (Hbound _ _ E)].
    - unfold well_formed; cbn. split; lra. }
  destruct Hacc as [(H0 & H1 & H2) Hcoh].
  set (eff := _Accumulator.effective_coherence acc 0.7).
  assert (Heff : 0 <= eff /\ eff <= 0.91
                 /\ (_Accumulator.coherence acc < 0.3 ->
                     eff <= _Accumulator.coherence acc)).
  { subst eff. unfold _Accumulator.effective_coherence.
    destruct (Py.lt (_Accumulator.coherence acc) 0.3) eqn:E;
      [apply lt_true in E | apply lt_false in E].
    - destruct (min_cases 0.7 (_Accumulator.coherence acc)) as [[H ->] | [H ->]];
        repeat split; intros; lra.
    - repeat split; intros; lra. }
  destruct Heff as (He0 & He1 & Hlow).
  assert (Hstep : well_formed (_Accumulator.positive_interaction acc 0.5 false)
                  /\ _Accumulator.coherence
                       (_Accumulator.positive_interaction acc 0.5 false)
                     <= 0.06 * inject_Z (Z.of_nat (S k))).
  { split.
    - apply positive_interaction_step;
        [unfold well_formed; lra | unfold unit_interval; lra].
    - unfold _Accumulator.positive_interaction.
      cbn [_Accumulator.coherence].
      destruct (min_cases 1.0 (_Accumulator.coherence acc + 0.5 * 0.12))
        as [[H ->] | [H ->]]; lra. }
  destruct Hstep as [Hwf' Hcoh'].
  do 3 eexists. split; [reflexivity |].
  cbn [interaction_count_display phase_label coherence_pct].
  fold eff.
  split; [reflexivity |]. split; [reflexivity |].
  split; [exact He0 |]. split; [exact He1 |].
  assert (Hnat : (k < 5)%nat -> inject_Z (Z.of_nat k) <= 4)
    by (intros Hk; change 4 with (inject_Z 4); rewrite <- Zle_Qle; lia).
  split; [intros Hk; specialize (Hnat Hk); lra |].
  unfold CoherenceFieldPy.store.
  cbn [snd CoherenceFieldPy.curiosity_drive CoherenceFieldPy.recovery_rate
       CoherenceFieldPy._accumulators].
  split; [| split; [| split]].
  - unfold field_well_formed.
    cbn [CoherenceFieldPy.curiosity_drive CoherenceFieldPy.recovery_rate
         CoherenceFieldPy._accumulators].
    split; [exact Hc | split; [exact Hr |]].
    apply map_Forall_insert_2; [exact Hwf' |].
    apply map_Forall_insert_2; [unfold well_formed; lra | exact Haccs].
  - apply map_Forall_insert_2; [exact Hcoh' |].
    apply map_Forall_insert_2; [lra |].
    intros h a Ha. pose proof (Hbound h a Ha). cbn beta in *. lra.
  - unfold classify_phase, _UPPER_SHY_TO_BUILDING, _LOWER_BUILDING_TO_SHY,
      _UPPER_BUILDING_TO_BELOVED, _LOWER_BELOVED_TO_BUILDING,
      _GUARDIAN_TENSION, _STARTLE_TENSION.
    destruct phase; try destruct Hsettled; py_compare; cbn;
      try exact I; exfalso; lra.
  - intros HSk5.
    assert (Hk : (k < 5)%nat) by lia.
    rewrite (Hearly ltac:(lia)).
    specialize (Hnat Hk).
    assert (Heff' : eff < 0.35) by (assert (eff <= _Accumulator.coherence acc)
                                      by (apply Hlow; lra); lra).
    unfold classify_phase, _UPPER_SHY_TO_BUILDING, _GUARDIAN_TENSION,
      _STARTLE_TENSION.
    py_compare; cbn; try reflexivity; exfalso; lra.
Qed.

Lemma headless_loop_reports (m : nat) : forall (k : nat) field phase,
  field_well_formed field ->
  map_Forall (fun _ acc =>
                _Accumulator.coherence acc <= 0.06 * inject_Z (Z.of_nat k))
             (CoherenceFieldPy._accumulators field) ->
  settled phase ->
  ((k <= 5)%nat -> phase = ShyObserver) ->
  exists lines,
    headless_loop bi st clock (map Z.of_nat (seq k m)) field phase = Ok lines
    /\ List.length lines = m
    /\ forall (j : nat) line,
        lines !! j = Some line ->
        interaction_count_display line = (Z.of_nat (k + j) + 1)%Z
        /\ (phase_label line = "ShyObserver"
            \/ phase_label line = "BuildingTrust"
            \/ phase_label line = "QuietlyBeloved")
        /\ 0 <= coherence_pct line /\ coherence_pct line <= 0.91
        /\ ((k + j < 5)%nat ->
            phase_label line = "ShyObserver"
            /\ coherence_pct line <= 0.06 * inject_Z (Z.of_nat (k + j))).
Proof.
  induction m as [|m IH]; intros k field phase Hwf Hbound Hsettled Hearly.
  - exists []. split; [reflexivity | split; [reflexivity |]].
    intros j line Hj. rewrite lookup_nil in Hj. discriminate Hj.
  - destruct (headless_turn_reports k field phase Hwf Hbound Hsettled Hearly)
      as (line & field' & phase' & Hturn & Hcount & Hlabel & He0 & He1 & Hlow
          & Hwf' & Hbound' & Hsettled' & Hearly').
    destruct (IH (S k) field' phase' Hwf' Hbound' Hsettled' Hearly')
      as (lines & Hloop & Hlen & Hlines).
    exists (line :: lines).
    cbn [seq map headless_loop]. rewrite Hturn. cbn [Py.bind].
    rewrite Hloop. cbn [Py.bind].
    split; [reflexivity | split; [cbn; rewrite Hlen; reflexivity |]].
    intros [|j] line' Hj.
    + cbn in Hj. injection Hj as <-. rewrite Nat.add_0_r.
      split; [exact Hcount |].
      split; [rewrite Hlabel; destruct phase'; try destruct Hsettled'; auto |].
      split; [exact He0 |]. split; [exact He1 |].
      intros Hk. split; [| exact (Hlow Hk)].
      rewrite Hlabel, (Hearly' ltac:(lia)). reflexivity.
    + cbn in Hj. replace (k + S j)%nat with (S k + j)%nat by lia.
      exact (Hlines j line' Hj).
Qed.

(** X30. The scripted run never fails, whatever the number of turns and the
    hours the clock shows: it prints one line per turn, numbered from 1; the
    coherence printed lies in [0, 0.91]; the phase printed is ShyObserver,
    BuildingTrust or QuietlyBeloved, never a transient one; and the first five
    turns print ShyObserver with a coherence of at most 0.06 per turn already
    made, so the first turn prints ShyObserver and 0. *)
Theorem run_headless_reports (headless_turns : Z) :
  exists lines,
    run_headless bi st clock headless_turns = Ok lines
    /\ List.length lines = Z.to_nat headless_turns
    /\ forall (i : nat) line,
        lines !! i = Some line ->
        interaction_count_display line = (Z.of_nat i + 1)%Z
        /\ (phase_label line = "ShyObserver"
            \/ phase_label line = "BuildingTrust"
            \/ phase_label line = "QuietlyBeloved")
        /\ 0 <= coherence_pct line /\ coherence_pct line <= 0.91
        /\ ((i < 5)%nat ->
            phase_label line = "ShyObserver"
            /\ coherence_pct line <= 0.06 * inject_Z (Z.of_nat i)).
Proof.
  unfold run_headless.
  change (CoherenceFieldPy.new 0.5 0.5)
    with (Ok (CoherenceFieldPy.mk 0.5 0.5 ∅)).
  cbn [Py.bind].
  apply (headless_loop_reports (Z.to_nat headless_turns) 0).
  - unfold field_well_formed, unit_interval; cbn.
    split; [lra | split; [lra | apply map_Forall_empty]].
  - apply map_Forall_empty.
  - exact I.
  - reflexivity.
Qed.

End HeadlessFacts.

Lemma run_headless_reports_witness :
  exists lines,
    run_headless CcfPersistence.no_text NotInstalled (fun _ => 9%Z) 30
    = Py.Ok lines
    /\ List.length lines = 30%nat.
Proof.
  destruct (run_headless_reports CcfPersistence.no_text NotInstalled
              (fun _ => 9%Z) 30)
    as (lines & Hrun & Hlen & _).
  exists lines. split; [exact Hrun | exact Hlen].
Defined.
